(** * Oppia: [core/platform/auth/gae_auth_services.py]

    A shallow embedding of the service layer that ties Google App Engine
    auth IDs to Oppia user IDs, and the properties of its association
    store, deletion path and sign-out hook. *)

From stdpp Require Import gmap strings list fin_maps.
From Stdlib Require Import ZArith Lia Ascii.

Set Default Proof Using "Type".

(** ** Time

    A [datetime] is a point on the proleptic Gregorian time line, counted in
    microseconds from [datetime.min] (0001-01-01T00:00:00). *)

Definition datetime := Z.
Definition timedelta := Z.

Definition MICROSECONDS_PER_DAY : Z := 86400 * 1000000.

(** [datetime.timedelta(days=n)] *)
Definition timedelta_days (n : Z) : timedelta := (n * MICROSECONDS_PER_DAY)%Z.

(** ** Storage models *)

(** Modelled from the spec: the properties every model inherits from
    [BaseModel] (the deletion flag, default false, and the creation and
    update timestamps), around the properties [F] of the concrete model
    class. *)
Record Entity (F : Type) := mkEntity {
  fields : F;
  deleted : bool;
  created_on : option datetime;
  last_updated : option datetime;
}.
Arguments mkEntity {F} _ _ _ _.
Arguments fields {F} _.
Arguments deleted {F} _.
Arguments created_on {F} _.
Arguments last_updated {F} _.

(** Modelled from the spec: a model instance held by the Python code, its
    key [id] and its properties. *)
Record Model (F : Type) := mkModel {
  id : string;
  entity : Entity F;
}.
Arguments mkModel {F} _ _.
Arguments id {F} _.
Arguments entity {F} _.

(** Modelled from the spec: [UserIdentifiersModel] (the AuthIdRecord) is
    keyed by auth ID and holds the user ID. *)
Record UserIdentifiersProps := mkUserIdentifiersProps {
  user_id : string;
}.

(** Modelled from the spec: [UserAuthDetailsModel] (the UserAuthRecord) is
    keyed by user ID and holds the nullable auth ID, next to the
    [parent_user_id] other services keep there. *)
Record UserAuthDetailsProps := mkUserAuthDetailsProps {
  gae_id : option string;
  parent_user_id : option string;
}.

(** Modelled from the spec: the key-value storage system, one table of
    records per model class. *)
Record Datastore := mkDatastore {
  user_identifiers : gmap string (Entity UserIdentifiersProps);
  user_auth_details : gmap string (Entity UserAuthDetailsProps);
}.

(** Modelled from the spec: a model class knows its table in the
    datastore. *)
Class ModelClass (F : Type) := {
  kind_table : Datastore → gmap string (Entity F);
  kind_update :
    (gmap string (Entity F) → gmap string (Entity F)) → Datastore → Datastore;
}.

#[export] Instance UserIdentifiersModel : ModelClass UserIdentifiersProps := {|
  kind_table := user_identifiers;
  kind_update f ds :=
    mkDatastore (f (user_identifiers ds)) (user_auth_details ds);
|}.

#[export] Instance UserAuthDetailsModel : ModelClass UserAuthDetailsProps := {|
  kind_table := user_auth_details;
  kind_update f ds :=
    mkDatastore (user_identifiers ds) (f (user_auth_details ds));
|}.

(** ** Exceptions, the world and the monad of the service functions *)

Inductive Exception :=
  (** 'auth_id=%r is already associated with user_id=%r' *)
  | AuthIdAlreadyAssociated (auth_id user_id_collision : string)
  (** 'user_id=%r is already associated with auth_id=%r' *)
  | UserIdAlreadyAssociated (user_id auth_id_collision : string)
  (** 'already associated: {auth_id=%r: user_id=%r}, ...' *)
  | AuthIdsAlreadyAssociated (collisions : list (string * string))
  (** 'already associated: {user_id=%r: auth_id=%r}, ...' *)
  | UserIdsAlreadyAssociated (collisions : list (string * string))
  (** unpacking the ZIP of an empty batch into [auth_ids, user_ids] *)
  | ValueError
  (** [datetime - timedelta] leaves the range of [datetime] *)
  | OverflowError
  (** a call with the wrong number of arguments *)
  | TypeError
  (** the storage system is asked to get a key that has no ID *)
  | BadRequestError.

Inductive Result (A : Type) :=
  | Ok (a : A)
  | Raise (e : Exception).
Arguments Ok {A} _.
Arguments Raise {A} _.

(** The world a call runs in: the datastore, and the system clock as the
    sequence of its readings together with the number of readings taken. *)
Record World := mkWorld {
  datastore : Datastore;
  clock : nat → datetime;
  ticks : nat;
}.

(** A raised exception keeps the writes made before it. *)
Definition M (A : Type) : Type := World → Result A * World.

Definition ret {A} (a : A) : M A := λ w, (Ok a, w).

Definition bind {A B} (c : M A) (k : A → M B) : M B :=
  λ w, match c w with
       | (Ok a, w') => k a w'
       | (Raise e, w') => (Raise e, w')
       end.

Definition raise {A} (e : Exception) : M A := λ w, (Raise e, w).

Declare Scope py_scope.
Delimit Scope py_scope with py.
Notation "'let*' x ':=' c 'in' k" := (bind c (λ x, k))
  (at level 10, x name, c at level 100, k at level 200) : py_scope.
Notation "'do' c 'then' k" := (bind c (λ _, k))
  (at level 10, c at level 100, k at level 200) : py_scope.
Local Open Scope py_scope.

(** [datetime.datetime.utcnow()] *)
Definition utcnow : M datetime :=
  λ w, (Ok (clock w (ticks w)), mkWorld (datastore w) (clock w) (S (ticks w))).

Definition read {A} (f : Datastore → A) : M A :=
  λ w, (Ok (f (datastore w)), w).

Definition write (f : Datastore → Datastore) : M unit :=
  λ w, (Ok tt, mkWorld (f (datastore w)) (clock w) (ticks w)).

Fixpoint mapM {A B} (f : A → M B) (l : list A) : M (list B) :=
  match l with
  | [] => ret []
  | x :: l' => let* y := f x in let* ys := mapM f l' in ret (y :: ys)
  end.

Fixpoint forM_ {A} (l : list A) (f : A → M unit) : M unit :=
  match l with
  | [] => ret tt
  | x :: l' => do f x then forM_ l' f
  end.

(** ** [BaseModel] and the two model classes

    The classes of [core/storage] are not part of this module; what the
    service layer needs of them is modelled here. *)

Section BaseModel.
Context {F : Type} `{!ModelClass F}.

(** Modelled from the spec: the per-key get of the key-value storage
    system ([cls.get_by_id]); it returns the stored record whether or not
    it is tombstoned, and None when there is none. *)
Definition get_by_id (entity_id : string) (ds : Datastore) : option (Model F) :=
  mkModel entity_id <$> kind_table ds !! entity_id.

(** Modelled from the spec: [BaseModel.get(entity_id, strict=False)];
    a record that is missing or tombstoned is absent, which is what makes
    [lookup_auth_id] return absent after [mark_user_deleted]. *)
Definition get (entity_id : string) (ds : Datastore) : option (Model F) :=
  match get_by_id entity_id ds with
  | Some m => if deleted (entity m) then None else Some m
  | None => None
  end.

(** Modelled from the spec: [BaseModel.get_multi(entity_ids,
    include_deleted=False)], the batched multi-get; it preserves the order
    of the keys and fills None for each missing element, tombstoned
    records counting as missing unless [include_deleted]. *)
Definition get_multi (entity_ids : list string) (include_deleted : bool)
    (ds : Datastore) : list (option (Model F)) :=
  (λ entity_id,
     if include_deleted then get_by_id entity_id ds else get entity_id ds)
  <$> entity_ids.

(** Modelled from the spec: [BaseModel.update_timestamps()]; the update
    timestamp is refreshed on every write, the creation timestamp is set
    when the record has none yet. *)
Definition update_timestamps (m : Model F) : M (Model F) :=
  let* now := utcnow in
  ret (mkModel (id m)
         (mkEntity (fields (entity m)) (deleted (entity m))
            (match created_on (entity m) with
             | Some t => Some t
             | None => Some now
             end)
            (Some now))).

(** Modelled from the spec: [BaseModel.put()], the per-key put; the
    record stored under the key of the model is replaced as a whole. *)
Definition put (m : Model F) : M unit :=
  write (kind_update (insert (id m) (entity m))).

(** Modelled from the spec: [BaseModel.update_timestamps_multi(models)] *)
Definition update_timestamps_multi (models : list (Model F)) : M (list (Model F)) :=
  mapM update_timestamps models.

(** Modelled from the spec: [BaseModel.put_multi(models)], the batched
    multi-put. *)
Definition put_multi (models : list (Model F)) : M unit :=
  forM_ models put.

(** [model.deleted = True] *)
Definition set_deleted (m : Model F) : Model F :=
  mkModel (id m)
    (mkEntity (fields (entity m)) true
       (created_on (entity m)) (last_updated (entity m))).

(** A freshly constructed model: [deleted] has its default False and the
    timestamps are not set yet. *)
Definition new_model (entity_id : string) (props : F) : Model F :=
  mkModel entity_id (mkEntity props false None None).
End BaseModel.

(** Modelled from the spec: [UserIdentifiersModel.get_by_gae_id(gae_id)];
    this direction reads tombstoned records as well. *)
Definition get_by_gae_id (gae_id : string) (ds : Datastore)
    : option (Model UserIdentifiersProps) :=
  get_by_id gae_id ds.

(** Modelled from the spec: [UserIdentifiersModel.get_by_user_id(user_id)],
    the reverse query on the user ID: the first record of the table whose
    [user_id] is the given one, tombstoned or not. *)
Definition get_by_user_id (uid : string) (ds : Datastore)
    : option (Model UserIdentifiersProps) :=
  (λ hit : nat * (string * Entity UserIdentifiersProps),
     mkModel hit.2.1 hit.2.2)
  <$> list_find (λ kv, user_id (fields kv.2) = uid)
        (map_to_list (user_identifiers ds)).

(** Modelled from the spec: [UserIdentifiersModel.get(gae_id, strict=False)]
    at the nullable [gae_id] of a [UserAuthDetailsModel].  The source passes
    the [gae_id] on as it is; for None there is no key to get, and the
    per-key get of the storage system (App Engine's ndb) raises
    BadRequestError.  For an auth ID it is [get]. *)
Definition get_by_nullable_id (gae_id : option string)
    : M (option (Model UserIdentifiersProps)) :=
  match gae_id with
  | Some auth_id => read (get auth_id)
  | None => raise BadRequestError
  end.

(** [UserIdentifiersModel(id=auth_id, user_id=user_id)] *)
Definition new_UserIdentifiersModel (auth_id uid : string)
    : Model UserIdentifiersProps :=
  new_model auth_id (mkUserIdentifiersProps uid).

(** [UserAuthDetailsModel(id=user_id, gae_id=auth_id)]; [parent_user_id]
    has its default None. *)
Definition new_UserAuthDetailsModel (uid auth_id : string)
    : Model UserAuthDetailsProps :=
  new_model uid (mkUserAuthDetailsProps (Some auth_id) None).

(** [auth_domain.AuthIdUserIdPair] *)
Definition AuthIdUserIdPair : Type := string * string.

(** ** The service functions *)

Definition mark_user_for_deletion (uid : string) : M unit :=
  let* assoc_by_user_id_model := read (get (F:=UserAuthDetailsProps) uid) in
  do match assoc_by_user_id_model with
     | Some m => let* m' := update_timestamps (set_deleted m) in put m'
     | None => ret tt
     end
  then
  let* assoc_by_auth_id_model :=
    match assoc_by_user_id_model with
    | None => read (get_by_user_id uid)
    | Some m => get_by_nullable_id (gae_id (fields (entity m)))
    end in
  match assoc_by_auth_id_model with
  | Some m => let* m' := update_timestamps (set_deleted m) in put m'
  | None => ret tt
  end.

Definition delete_external_auth_associations (unused_user_id : string) : M unit :=
  ret tt.

Definition verify_external_auth_associations_are_deleted
    (unused_user_id : string) : M bool :=
  ret true.

Definition get_auth_id_from_user_id (uid : string) (ds : Datastore)
    : option string :=
  match get (F:=UserAuthDetailsProps) uid ds with
  | None => None
  | Some assoc_by_user_id_model => gae_id (fields (entity assoc_by_user_id_model))
  end.

Definition get_multi_auth_ids_from_user_ids (user_ids : list string)
    (ds : Datastore) : list (option string) :=
  (λ model : option (Model UserAuthDetailsProps),
     match model with
     | None => None
     | Some model => gae_id (fields (entity model))
     end)
  <$> get_multi user_ids false ds.

Definition get_user_id_from_auth_id (auth_id : string) (ds : Datastore)
    : option string :=
  match get_by_gae_id auth_id ds with
  | None => None
  | Some assoc_by_auth_id_model =>
      Some (user_id (fields (entity assoc_by_auth_id_model)))
  end.

Definition get_multi_user_ids_from_auth_ids (auth_ids : list string)
    (ds : Datastore) : list (option string) :=
  (λ m : option (Model UserIdentifiersProps),
     match m with
     | None => None
     | Some m => Some (user_id (fields (entity m)))
     end)
  <$> get_multi auth_ids true ds.

Definition associate_auth_id_with_user_id
    (auth_id_user_id_pair : AuthIdUserIdPair) : M unit :=
  let '(auth_id, uid) := auth_id_user_id_pair in
  let* user_id_collision := read (get_user_id_from_auth_id auth_id) in
  do match user_id_collision with
     | Some user_id_collision =>
         raise (AuthIdAlreadyAssociated auth_id user_id_collision)
     | None => ret tt
     end
  then
  let* auth_id_collision := read (get_auth_id_from_user_id uid) in
  do match auth_id_collision with
     | Some auth_id_collision =>
         raise (UserIdAlreadyAssociated uid auth_id_collision)
     | None => ret tt
     end
  then
  let* assoc_by_auth_id_model :=
    update_timestamps (new_UserIdentifiersModel auth_id uid) in
  do put assoc_by_auth_id_model then
  let* assoc_by_user_id_model := read (get (F:=UserAuthDetailsProps) uid) in
  match assoc_by_user_id_model with
  | Some m =>
      match gae_id (fields (entity m)) with
      | Some _ => ret tt
      | None =>
          let* m' := update_timestamps (new_UserAuthDetailsModel uid auth_id) in
          put m'
      end
  | None =>
      let* m' := update_timestamps (new_UserAuthDetailsModel uid auth_id) in
      put m'
  end.

(** [python_utils.ZIP] of the unpacked pairs, bound to two names: the auth
    IDs and the user IDs.  The ZIP of no sequences at all is empty, and
    binding it to two names raises. *)
Definition ZIP_unpack (auth_id_user_id_pairs : list AuthIdUserIdPair)
    : M (list string * list string) :=
  match auth_id_user_id_pairs with
  | [] => raise ValueError
  | _ => ret (auth_id_user_id_pairs.*1, auth_id_user_id_pairs.*2)
  end.

(** [any(x is not None for x in xs)] *)
Definition any_is_not_None {A} (xs : list (option A)) : bool :=
  existsb (λ x, match x with Some _ => true | None => false end) xs.

(** [(k, v) for k, v in ZIP(keys, collisions) if v is not None] *)
Definition collisions_of (keys : list string) (collisions : list (option string))
    : list (string * string) :=
  omap (λ kv : string * option string, pair kv.1 <$> kv.2) (zip keys collisions).

(** The [UserAuthDetailsModel]s the batch has to create: one for each pair
    whose user has no readable model yet, or one without auth ID. *)
Definition new_assoc_by_user_id_models (auth_ids user_ids : list string)
    (models : list (option (Model UserAuthDetailsProps)))
    : list (Model UserAuthDetailsProps) :=
  omap (λ x : string * string * option (Model UserAuthDetailsProps),
          let '(auth_id, uid, assoc_by_user_id_model) := x in
          match assoc_by_user_id_model with
          | None => Some (new_UserAuthDetailsModel uid auth_id)
          | Some m =>
              match gae_id (fields (entity m)) with
              | None => Some (new_UserAuthDetailsModel uid auth_id)
              | Some _ => None
              end
          end)
       (zip (zip auth_ids user_ids) models).

Definition associate_multi_auth_ids_with_user_ids
    (auth_id_user_id_pairs : list AuthIdUserIdPair) : M unit :=
  let* unpacked := ZIP_unpack auth_id_user_id_pairs in
  let auth_ids := unpacked.1 in
  let user_ids := unpacked.2 in
  let* user_id_collisions := read (get_multi_user_ids_from_auth_ids auth_ids) in
  do (if any_is_not_None user_id_collisions
      then raise (AuthIdsAlreadyAssociated
                    (collisions_of auth_ids user_id_collisions))
      else ret tt)
  then
  let* auth_id_collisions := read (get_multi_auth_ids_from_user_ids user_ids) in
  do (if any_is_not_None auth_id_collisions
      then raise (UserIdsAlreadyAssociated
                    (collisions_of user_ids auth_id_collisions))
      else ret tt)
  then
  let* assoc_by_auth_id_models :=
    update_timestamps_multi
      (zip_with new_UserIdentifiersModel auth_ids user_ids) in
  do put_multi assoc_by_auth_id_models then
  let* existing := read (get_multi (F:=UserAuthDetailsProps) user_ids false) in
  match new_assoc_by_user_id_models auth_ids user_ids existing with
  | [] => ret tt
  | assoc_by_user_id_models =>
      let* assoc_by_user_id_models :=
        update_timestamps_multi assoc_by_user_id_models in
      put_multi assoc_by_user_id_models
  end.

(** Running a call: its result and the datastore it leaves. *)
Definition result_of {A} (c : M A) (w : World) : Result A := (c w).1.
Definition datastore_after {A} (c : M A) (w : World) : Datastore :=
  datastore (c w).2.
Definition world_after {A} (c : M A) (w : World) : World := (c w).2.

(** N sequential calls of [associate_auth_id_with_user_id], stopping at the
    first that raises. *)
Definition associate_sequentially (pairs : list AuthIdUserIdPair) : M unit :=
  forM_ pairs associate_auth_id_with_user_id.

(** ** Comparing datastores up to timestamps *)

Definition erase_timestamps {F} (e : Entity F) : Entity F :=
  mkEntity (fields e) (deleted e) None None.

Definition without_timestamps (ds : Datastore) : Datastore :=
  mkDatastore (erase_timestamps <$> user_identifiers ds)
              (erase_timestamps <$> user_auth_details ds).

#[export] Instance UserIdentifiersProps_eq_dec : EqDecision UserIdentifiersProps.
Proof. solve_decision. Defined.
#[export] Instance UserAuthDetailsProps_eq_dec : EqDecision UserAuthDetailsProps.
Proof. solve_decision. Defined.
#[export] Instance Entity_eq_dec {F} `{!EqDecision F} : EqDecision (Entity F).
Proof. solve_decision. Defined.
#[export] Instance Datastore_eq_dec : EqDecision Datastore.
Proof. solve_decision. Defined.

(** ** Dates, [strftime] and cookies

    What [destroy_auth_session] uses of Python's [datetime] and
    [http.cookies], for the years 1000 to 9999 where [%Y] prints four
    digits, in the C locale. *)

Local Open Scope Z_scope.

Definition _MAXORDINAL : Z := 3652059.
Definition _DI400Y : Z := 146097.
Definition _DI100Y : Z := 36524.
Definition _DI4Y : Z := 1461.

Definition _DAYS_IN_MONTH (month : Z) : Z :=
  nth (Z.to_nat month) [-1; 31; 28; 31; 30; 31; 30; 31; 31; 30; 31; 30; 31] 0.

Definition _DAYS_BEFORE_MONTH (month : Z) : Z :=
  nth (Z.to_nat month) [-1; 0; 31; 59; 90; 120; 151; 181; 212; 243; 273; 304; 334] 0.

Definition _is_leap (year : Z) : bool :=
  (year mod 4 =? 0) && (negb (year mod 100 =? 0) || (year mod 400 =? 0)).

Definition _days_before_year (year : Z) : Z :=
  let y := year - 1 in
  y * 365 + y / 4 - y / 100 + y / 400.

Definition _days_before_month (year month : Z) : Z :=
  _DAYS_BEFORE_MONTH month + (if (2 <? month) && _is_leap year then 1 else 0).

(** ordinal of a date, 0001-01-01 being day 1 *)
Definition _ymd2ord (year month day : Z) : Z :=
  _days_before_year year + _days_before_month year month + day.

(** (year, month, day) of an ordinal *)
Definition _ord2ymd (n : Z) : Z * Z * Z :=
  let n := n - 1 in
  let n400 := n / _DI400Y in
  let n := n mod _DI400Y in
  let year := n400 * 400 + 1 in
  let n100 := n / _DI100Y in
  let n := n mod _DI100Y in
  let n4 := n / _DI4Y in
  let n := n mod _DI4Y in
  let n1 := n / 365 in
  let n := n mod 365 in
  let year := year + n100 * 100 + n4 * 4 + n1 in
  if (n1 =? 4) || (n100 =? 4) then (year - 1, 12, 31)
  else
    let leapyear := (n1 =? 3) && (negb (n4 =? 24) || (n100 =? 3)) in
    let month := Z.shiftr (n + 50) 5 in
    let preceding :=
      _DAYS_BEFORE_MONTH month + (if (2 <? month) && leapyear then 1 else 0) in
    if n <? preceding
    then
      let month := month - 1 in
      let preceding :=
        preceding
        - (_DAYS_IN_MONTH month + (if (month =? 2) && leapyear then 1 else 0)) in
      (year, month, n - preceding + 1)
    else (year, month, n - preceding + 1).

(** [datetime(year, month, day, hour, minute, second)] *)
Definition datetime_of (year month day hour minute second : Z) : datetime :=
  (_ymd2ord year month day - 1) * MICROSECONDS_PER_DAY
  + ((hour * 60 + minute) * 60 + second) * 1000000.

Definition toordinal (t : datetime) : Z := t / MICROSECONDS_PER_DAY + 1.
Definition year_of (t : datetime) : Z := (_ord2ymd (toordinal t)).1.1.
Definition month_of (t : datetime) : Z := (_ord2ymd (toordinal t)).1.2.
Definition day_of (t : datetime) : Z := (_ord2ymd (toordinal t)).2.
Definition hour_of (t : datetime) : Z := t mod MICROSECONDS_PER_DAY / 3600000000.
Definition minute_of (t : datetime) : Z := t mod 3600000000 / 60000000.
Definition second_of (t : datetime) : Z := t mod 60000000 / 1000000.
(** Monday is 0 *)
Definition weekday (t : datetime) : Z := (toordinal t + 6) mod 7.

(** [datetime - timedelta] *)
Definition datetime_sub (t : datetime) (d : timedelta) : M datetime :=
  if (0 <? toordinal (t - d)) && (toordinal (t - d) <=? _MAXORDINAL)
  then ret (t - d)
  else raise OverflowError.

Definition digit (n : Z) : ascii :=
  ascii_of_nat (48 + Z.to_nat (n mod 10)).

(** [n] in decimal, zero-filled to [width] digits *)
Fixpoint zfill (width : nat) (n : Z) : string :=
  match width with
  | O => EmptyString
  | S width' => zfill width' (n / 10) +:+ String (digit n) EmptyString
  end.

Definition day_abbr (wd : Z) : string :=
  nth (Z.to_nat wd) ["Mon"; "Tue"; "Wed"; "Thu"; "Fri"; "Sat"; "Sun"]%string EmptyString.

Definition month_abbr (month : Z) : string :=
  nth (Z.to_nat month)
    [EmptyString; "Jan"; "Feb"; "Mar"; "Apr"; "May"; "Jun";
     "Jul"; "Aug"; "Sep"; "Oct"; "Nov"; "Dec"]%string EmptyString.

(** One [strftime] directive; an unknown one is passed through. *)
Definition directive (c : ascii) (t : datetime) : string :=
  if decide (c = "a"%char) then day_abbr (weekday t)
  else if decide (c = "d"%char) then zfill 2 (day_of t)
  else if decide (c = "b"%char) then month_abbr (month_of t)
  else if decide (c = "Y"%char) then zfill 4 (year_of t)
  else if decide (c = "H"%char) then zfill 2 (hour_of t)
  else if decide (c = "M"%char) then zfill 2 (minute_of t)
  else if decide (c = "S"%char) then zfill 2 (second_of t)
  else String "%" (String c EmptyString).

(** [datetime.strftime(format)] for the datetimes a clock reading gives,
    years 1900 to 9999: before year 1900 Python 2.7 raises ValueError
    instead, and before year 1000 [%Y] prints fewer than four digits. *)
Fixpoint strftime (format : string) (t : datetime) : string :=
  match format with
  | EmptyString => EmptyString
  | String c format' =>
      if decide (c = "%"%char)
      then match format' with
           | String d format'' => directive d t +:+ strftime format'' t
           | EmptyString => "%"
           end
      else String c (strftime format' t)
  end%string.

(** [cookie = SimpleCookie(); cookie[name] = value;
    cookie[name]['expires'] = expires; cookie.output()] for a value that
    needs no quoting *)
Definition SimpleCookie_output (name value expires : string) : string :=
  "Set-Cookie: " +:+ name +:+ "=" +:+ value +:+ "; expires=" +:+ expires.

Fixpoint starts_with (sep s : string) : option string :=
  match sep, s with
  | EmptyString, _ => Some s
  | String a sep', String b s' =>
      if decide (a = b) then starts_with sep' s' else None
  | String _ _, EmptyString => None
  end%string.

(** [s.split(sep, 1)] *)
Fixpoint split_1 (sep s : string) : list string :=
  match starts_with sep s with
  | Some rest => [EmptyString; rest]%string
  | None =>
      match s with
      | EmptyString => [EmptyString]
      | String c s' =>
          match split_1 sep s' with
          | head :: tail => String c head :: tail
          | [] => []
          end
      end
  end%string.

Local Close Scope Z_scope.

(** [webapp2.Response]: the headers, in the order they were added *)
Record Response := mkResponse {
  headers : list (string * string);
}.

(** [response.headers.add_header] applied to the unpacked arguments *)
Definition add_header (args : list string) (response : Response) : M Response :=
  match args with
  | [name; value] => ret (mkResponse (headers response ++ [(name, value)]))
  | _ => raise TypeError
  end.

Definition destroy_auth_session_cookie (response : Response)
    (cookie_name : string) : M Response :=
  let* now := utcnow in
  let* expires := datetime_sub now (timedelta_days 1) in
  let cookie :=
    SimpleCookie_output cookie_name EmptyString
      (strftime "%a, %d %b %Y %H:%M:%S GMT" expires) in
  add_header (split_1 ": " cookie) response.

Fixpoint foldM {A B} (f : B → A → M B) (b : B) (l : list A) : M B :=
  match l with
  | [] => ret b
  | x :: l' => let* b' := f b x in foldM f b' l'
  end.

Definition destroy_auth_session (response : Response) : M Response :=
  foldM destroy_auth_session_cookie response
    ["ACSID"; "SACSID"; "dev_appserver_login"].

(** The record [associate_auth_id_with_user_id] and the batch write for the
    auth ID, at clock reading [now]. *)
Definition fresh_UserIdentifiers (uid : string) (now : datetime)
    : Entity UserIdentifiersProps :=
  mkEntity (mkUserIdentifiersProps uid) false (Some now) (Some now).

(** The record they write for the user ID. *)
Definition fresh_UserAuthDetails (auth_id : string) (now : datetime)
    : Entity UserAuthDetailsProps :=
  mkEntity (mkUserAuthDetailsProps (Some auth_id) None) false (Some now) (Some now).


(** ** Example worlds *)

(** A clock that starts at 2021-01-02 03:04:05 and advances by one second
    from each reading to the next. *)
Definition counting_clock : nat → datetime :=
  λ n, (datetime_of 2021 1 2 3 4 5 + Z.of_nat n * 1000000)%Z.

Definition empty_world : World :=
  mkWorld (mkDatastore ∅ ∅) counting_clock 0.

(** The world after associating auth ID [a1] with user ID [u1]. *)
Definition world_a1_u1 : World :=
  world_after (associate_auth_id_with_user_id ("a1", "u1")) empty_world.

(** What [mark_user_for_deletion] stores for a record it tombstones at
    clock reading [now]. *)
Definition tombstoned {F} (e : Entity F) (now : datetime) : Entity F :=
  mkEntity (fields e) true
    (match created_on e with Some t => Some t | None => Some now end)
    (Some now).

(** The world after marking user [u1] of [world_a1_u1] for deletion. *)
Definition world_a1_u1_deleted : World :=
  world_after (mark_user_for_deletion "u1") world_a1_u1.

(** A world with a [UserIdentifiersModel] for [a1] that names [u1], and no
    [UserAuthDetailsModel] at all. *)
Definition world_one_sided : World :=
  mkWorld
    (mkDatastore
       {[ "a1" := mkEntity (mkUserIdentifiersProps "u1") false (Some 7%Z) (Some 7%Z) ]}
       ∅)
    counting_clock 0.

(** A world where user [u1] has a [UserAuthDetailsModel] without auth ID,
    kept there by another service for its [parent_user_id]. *)
Definition world_profile_user : World :=
  mkWorld
    (mkDatastore
       ∅
       {[ "u1" := mkEntity (mkUserAuthDetailsProps None (Some "u0"))
                    false (Some 7%Z) (Some 8%Z) ]})
    counting_clock 0.

(** A model after [update_timestamps] at clock reading [now]. *)
Definition stamped {F} (now : datetime) (m : Model F) : Model F :=
  mkModel (id m)
    (mkEntity (fields (entity m)) (deleted (entity m))
       (match created_on (entity m) with Some t => Some t | None => Some now end)
       (Some now)).

(** The models of a list after [update_timestamps_multi], the first of them
    stamped with clock reading number [tick]. *)
Fixpoint stamped_from {F} (clk : nat → datetime) (tick : nat)
    (models : list (Model F)) : list (Model F) :=
  match models with
  | [] => []
  | m :: models' => stamped (clk tick) m :: stamped_from clk (S tick) models'
  end.

(** A table after [put_multi]. *)
Definition put_all {F} (models : list (Model F))
    (table : gmap string (Entity F)) : gmap string (Entity F) :=
  foldl (λ table m, <[id m := entity m]> table) table models.

(** The pairs of a batch whose auth ID already has a user ID, with that
    user ID. *)
Definition auth_id_collisions_in (pairs : list AuthIdUserIdPair)
    (ds : Datastore) : list (string * string) :=
  omap (λ p : AuthIdUserIdPair,
          pair p.1 <$> get_user_id_from_auth_id p.1 ds) pairs.

(** The pairs of a batch whose user ID already has an auth ID, with that
    auth ID. *)
Definition user_id_collisions_in (pairs : list AuthIdUserIdPair)
    (ds : Datastore) : list (string * string) :=
  omap (λ p : AuthIdUserIdPair,
          pair p.2 <$> get_auth_id_from_user_id p.2 ds) pairs.

(** A pair collides with the datastore when one of its IDs is already
    associated. *)
Definition collides (p : AuthIdUserIdPair) (ds : Datastore) : Prop :=
  is_Some (get_user_id_from_auth_id p.1 ds)
  ∨ is_Some (get_auth_id_from_user_id p.2 ds).

(** The error of a batch names a pair when it lists the ID of the pair that
    the error is about. *)
Definition lists_pair (e : Exception) (p : AuthIdUserIdPair) : Prop :=
  match e with
  | AuthIdsAlreadyAssociated collisions => p.1 ∈ collisions.*1
  | UserIdsAlreadyAssociated collisions => p.2 ∈ collisions.*1
  | _ => False
  end.

(** A world where auth ID [a1] is associated with user [u9], and user [u2]
    with auth ID [a9]. *)
Definition world_a1_u9_a9_u2 : World :=
  world_after
    (do associate_auth_id_with_user_id ("a1", "u9")
     then associate_auth_id_with_user_id ("a9", "u2"))
    empty_world.

(** A model without its timestamps. *)
Definition erase_model_timestamps {F} (m : Model F) : Model F :=
  mkModel (id m) (erase_timestamps (entity m)).

(** ** The remaining hooks of the module *)

(** Modelled from the spec: [webapp2.Request]; the hooks that take one do
    not look at it. *)
Record Request := mkRequest {
  request_headers : list (string * string);
}.

Definition establish_auth_session (unused_request : Request)
    (unused_response : Response) : M unit :=
  ret tt.

(** Modelled from the spec: the user [users.get_current_user()] of the
    external auth platform returns, with its ID and e-mail address. *)
Record GaeUser := mkGaeUser {
  gae_user_id : string;
  gae_user_email : string;
}.

(** Modelled from the spec: what the external auth platform answers for the
    request at hand, [users.get_current_user()] and
    [users.is_current_user_admin()]. *)
Record Users := mkUsers {
  get_current_user : option GaeUser;
  is_current_user_admin : bool;
}.

(** Modelled from the spec: [auth_domain.AuthClaims], the claims value
    (external ID, e-mail address, admin flag). *)
Record AuthClaims := mkAuthClaims {
  claims_auth_id : string;
  claims_email : string;
  claims_role_is_super_admin : bool;
}.

Definition get_auth_claims_from_request (users : Users)
    (unused_request : Request) : option AuthClaims :=
  match get_current_user users with
  | Some gae_user =>
      Some (mkAuthClaims (gae_user_id gae_user) (gae_user_email gae_user)
              (is_current_user_admin users))
  | None => None
  end.

(** ** The symmetry of the two tables *)

(** Every readable auth ID of a user is backed by the
    [UserIdentifiersModel] of that auth ID naming the user, and every live
    [UserIdentifiersModel] names a user whose readable auth ID is its
    key. *)
Definition symmetric (ds : Datastore) : Prop :=
  (∀ uid auth_id,
     get_auth_id_from_user_id uid ds = Some auth_id →
     get_user_id_from_auth_id auth_id ds = Some uid)
  ∧ (∀ auth_id e,
       user_identifiers ds !! auth_id = Some e →
       deleted e = false →
       get_auth_id_from_user_id (user_id (fields e)) ds = Some auth_id).

(** The calls of the module that write to the datastore. *)
Inductive Call :=
  | Associate (auth_id_user_id_pair : AuthIdUserIdPair)
  | AssociateMulti (auth_id_user_id_pairs : list AuthIdUserIdPair)
  | MarkForDeletion (uid : string).

Definition run_call (c : Call) : M unit :=
  match c with
  | Associate p => associate_auth_id_with_user_id p
  | AssociateMulti pairs => associate_multi_auth_ids_with_user_ids pairs
  | MarkForDeletion uid => mark_user_for_deletion uid
  end.

(** The world after a sequence of calls, each made whatever the one before
    it returned or raised. *)
Definition world_after_calls (calls : list Call) (w : World) : World :=
  foldl (λ w c, world_after (run_call c) w) w calls.

(** A batch whose auth IDs are pairwise distinct, and whose user IDs are. *)
Definition distinct_ids (c : Call) : Prop :=
  match c with
  | AssociateMulti pairs => NoDup pairs.*1 ∧ NoDup pairs.*2
  | _ => True
  end.

(** A record is kept as [e'] when it still has the properties of its model
    class, is still tombstoned if it was, and still has its creation
    timestamp if it had one. *)
Definition kept_as {F} (e e' : Entity F) : Prop :=
  fields e' = fields e
  ∧ (deleted e = true → deleted e' = true)
  ∧ (∀ t, created_on e = Some t → created_on e' = Some t).

(** A world with an empty datastore whose clock stands at 2021-01-02
    03:04:05. *)
Definition frozen_world : World :=
  mkWorld (mkDatastore ∅ ∅) (λ _, datetime_of 2021 1 2 3 4 5) 0.
(** * Properties *)

Arguments get_user_id_from_auth_id : simpl never.
Arguments get_auth_id_from_user_id : simpl never.
Arguments get : simpl never.
Arguments get_by_user_id : simpl never.

(** ** The lookups, read off the tables *)

Lemma get_user_id_from_auth_id_lookup auth_id ds :
  get_user_id_from_auth_id auth_id ds
  = (λ e, user_id (fields e)) <$> user_identifiers ds !! auth_id.
Proof.
  unfold get_user_id_from_auth_id, get_by_gae_id, get_by_id. simpl.
  by destruct (user_identifiers ds !! auth_id).
Qed.

Lemma get_UserAuthDetailsModel_lookup uid ds :
  get (F:=UserAuthDetailsProps) uid ds
  = e ← user_auth_details ds !! uid;
    if deleted e then None else Some (mkModel uid e).
Proof.
  unfold get, get_by_id. simpl.
  by destruct (user_auth_details ds !! uid).
Qed.

Lemma get_UserIdentifiersModel_lookup auth_id ds :
  get (F:=UserIdentifiersProps) auth_id ds
  = e ← user_identifiers ds !! auth_id;
    if deleted e then None else Some (mkModel auth_id e).
Proof.
  unfold get, get_by_id. simpl.
  by destruct (user_identifiers ds !! auth_id).
Qed.

Lemma get_auth_id_from_user_id_lookup uid ds :
  get_auth_id_from_user_id uid ds
  = e ← user_auth_details ds !! uid;
    if deleted e then None else gae_id (fields e).
Proof.
  unfold get_auth_id_from_user_id. rewrite get_UserAuthDetailsModel_lookup.
  destruct (user_auth_details ds !! uid) as [e|]; simpl; [|done].
  by destruct (deleted e).
Qed.

(** ** [associate_auth_id_with_user_id] in closed form *)

Lemma associate_auth_id_collision w auth_id uid user_id_collision :
  get_user_id_from_auth_id auth_id (datastore w) = Some user_id_collision →
  associate_auth_id_with_user_id (auth_id, uid) w
  = (Raise (AuthIdAlreadyAssociated auth_id user_id_collision), w).
Proof.
  intros H. unfold associate_auth_id_with_user_id, bind, read. simpl.
  by rewrite H.
Qed.

Lemma associate_user_id_collision w auth_id uid auth_id_collision :
  get_user_id_from_auth_id auth_id (datastore w) = None →
  get_auth_id_from_user_id uid (datastore w) = Some auth_id_collision →
  associate_auth_id_with_user_id (auth_id, uid) w
  = (Raise (UserIdAlreadyAssociated uid auth_id_collision), w).
Proof.
  intros H1 H2. unfold associate_auth_id_with_user_id, bind, read. simpl.
  rewrite H1. simpl. by rewrite H2.
Qed.

Lemma associate_no_collision w auth_id uid :
  get_user_id_from_auth_id auth_id (datastore w) = None →
  get_auth_id_from_user_id uid (datastore w) = None →
  associate_auth_id_with_user_id (auth_id, uid) w
  = (Ok tt,
     mkWorld
       (mkDatastore
          (<[auth_id := fresh_UserIdentifiers uid (clock w (ticks w))]>
             (user_identifiers (datastore w)))
          (<[uid := fresh_UserAuthDetails auth_id (clock w (S (ticks w)))]>
             (user_auth_details (datastore w))))
       (clock w) (S (S (ticks w)))).
Proof.
  intros H1 H2.
  unfold associate_auth_id_with_user_id, bind, read. simpl.
  rewrite H1. simpl. rewrite H2. simpl.
  rewrite get_auth_id_from_user_id_lookup in H2.
  rewrite get_UserAuthDetailsModel_lookup. simpl.
  destruct (user_auth_details (datastore w) !! uid) as [e|]; simpl in *; [|done].
  destruct (deleted e); simpl; [done|].
  by rewrite H2.
Qed.

Lemma associate_no_collision_lookups w auth_id uid :
  get_user_id_from_auth_id auth_id (datastore w) = None →
  get_auth_id_from_user_id uid (datastore w) = None →
  let w' := (associate_auth_id_with_user_id (auth_id, uid) w).2 in
  get_user_id_from_auth_id auth_id (datastore w') = Some uid
  ∧ get_auth_id_from_user_id uid (datastore w') = Some auth_id.
Proof.
  intros H1 H2. rewrite associate_no_collision by done. simpl. split.
  - rewrite get_user_id_from_auth_id_lookup. simpl.
    by rewrite lookup_insert_eq.
  - rewrite get_auth_id_from_user_id_lookup. simpl.
    by rewrite lookup_insert_eq.
Qed.

(** C1: for an auth ID and a user ID that are not associated with anything,
    [associate_auth_id_with_user_id] succeeds, and afterwards
    [get_user_id_from_auth_id] returns the user ID and
    [get_auth_id_from_user_id] returns the auth ID. *)
Theorem associate_then_lookups w auth_id uid :
  get_user_id_from_auth_id auth_id (datastore w) = None →
  get_auth_id_from_user_id uid (datastore w) = None →
  let call := associate_auth_id_with_user_id (auth_id, uid) in
  result_of call w = Ok tt
  ∧ get_user_id_from_auth_id auth_id (datastore_after call w) = Some uid
  ∧ get_auth_id_from_user_id uid (datastore_after call w) = Some auth_id.
Proof.
  intros H1 H2 call. split.
  - unfold result_of, call. by rewrite associate_no_collision.
  - by apply associate_no_collision_lookups.
Qed.

Lemma associate_ok_inv w auth_id uid :
  result_of (associate_auth_id_with_user_id (auth_id, uid)) w = Ok tt →
  get_user_id_from_auth_id auth_id (datastore w) = None
  ∧ get_auth_id_from_user_id uid (datastore w) = None.
Proof.
  unfold result_of. intros H.
  destruct (get_user_id_from_auth_id auth_id (datastore w)) as [uc|] eqn:H1.
  { by rewrite (associate_auth_id_collision _ _ _ _ H1) in H. }
  destruct (get_auth_id_from_user_id uid (datastore w)) as [ac|] eqn:H2.
  { by rewrite (associate_user_id_collision _ _ _ _ H1 H2) in H. }
  done.
Qed.

(** C5: [associate_auth_id_with_user_id] raises when the auth ID already has
    a user ID, and otherwise when the user ID already has an auth ID: the
    auth ID collision is the one reported when both collide, and nothing is
    written.  So after a successful association, associating the same auth
    ID again (with the same or another user ID) raises, and so does
    associating the same user ID with any auth ID. *)
Theorem associate_collision_errors w auth_id uid :
  let call := associate_auth_id_with_user_id (auth_id, uid) in
  (∀ user_id_collision,
     get_user_id_from_auth_id auth_id (datastore w) = Some user_id_collision →
     call w = (Raise (AuthIdAlreadyAssociated auth_id user_id_collision), w))
  ∧ (∀ auth_id_collision,
       get_user_id_from_auth_id auth_id (datastore w) = None →
       get_auth_id_from_user_id uid (datastore w) = Some auth_id_collision →
       call w = (Raise (UserIdAlreadyAssociated uid auth_id_collision), w))
  ∧ (result_of call w = Ok tt →
     ∀ auth_id' uid',
       result_of (associate_auth_id_with_user_id (auth_id, uid'))
         (world_after call w)
       = Raise (AuthIdAlreadyAssociated auth_id uid)
       ∧ ∃ e,
           result_of (associate_auth_id_with_user_id (auth_id', uid))
             (world_after call w) = Raise e
           ∧ (e = UserIdAlreadyAssociated uid auth_id
              ∨ ∃ uc, e = AuthIdAlreadyAssociated auth_id' uc)).
Proof.
  intros call. split_and!.
  - intros uc H. by apply associate_auth_id_collision.
  - intros ac H1 H2. by apply associate_user_id_collision.
  - intros Hok auth_id' uid'.
    destruct (associate_ok_inv _ _ _ Hok) as [H1 H2].
    destruct (associate_no_collision_lookups w auth_id uid H1 H2) as (L1 & L2).
    fold call in L1, L2.
    unfold result_of, world_after. split.
    + by rewrite (associate_auth_id_collision _ _ _ _ L1).
    + destruct (get_user_id_from_auth_id auth_id' (datastore (call w).2))
        as [uc|] eqn:L3.
      * rewrite (associate_auth_id_collision _ _ _ _ L3). eauto.
      * rewrite (associate_user_id_collision _ _ _ _ L3 L2). eauto.
Qed.

Lemma associate_collision_errors_witness :
  associate_auth_id_with_user_id ("a1", "u2") world_a1_u1
  = (Raise (AuthIdAlreadyAssociated "a1" "u1"), world_a1_u1).
Proof.
  apply (proj1 (associate_collision_errors world_a1_u1 "a1" "u2")).
  reflexivity.
Defined.

Lemma associate_then_lookups_witness :
  get_user_id_from_auth_id "a1" (datastore empty_world) = None
  ∧ get_auth_id_from_user_id "u1" (datastore empty_world) = None
  ∧ get_user_id_from_auth_id "a1" (datastore world_a1_u1) = Some "u1"
  ∧ get_auth_id_from_user_id "u1" (datastore world_a1_u1) = Some "a1".
Proof.
  split; [reflexivity|]. split; [reflexivity|].
  apply (associate_then_lookups empty_world "a1" "u1"); reflexivity.
Defined.

(** ** The reverse query *)

Lemma get_by_user_id_Some uid ds m :
  get_by_user_id uid ds = Some m →
  user_identifiers ds !! id m = Some (entity m)
  ∧ user_id (fields (entity m)) = uid.
Proof.
  unfold get_by_user_id. intros H.
  apply fmap_Some in H as ([i [k e]] & Hfind & ->).
  apply list_find_Some in Hfind as (Hi & Hu & _). simpl in *.
  split; [|done].
  apply elem_of_map_to_list, list_elem_of_lookup. eauto.
Qed.

Lemma get_by_user_id_None uid ds auth_id e :
  get_by_user_id uid ds = None →
  user_identifiers ds !! auth_id = Some e →
  user_id (fields e) ≠ uid.
Proof.
  unfold get_by_user_id. intros H He Hu.
  apply fmap_None in H.
  apply list_find_None in H.
  rewrite Forall_forall in H.
  apply (H (auth_id, e)); [|done].
  by apply elem_of_map_to_list.
Qed.

Lemma get_by_user_id_is_Some uid ds auth_id e :
  user_identifiers ds !! auth_id = Some e →
  user_id (fields e) = uid →
  is_Some (get_by_user_id uid ds).
Proof.
  intros He Hu.
  destruct (get_by_user_id uid ds) eqn:H; [eauto|].
  by destruct (get_by_user_id_None _ _ _ _ H He).
Qed.

(** ** [mark_user_for_deletion] in closed form *)

(** The user has a readable [UserAuthDetailsModel] whose auth ID has a
    readable [UserIdentifiersModel]: both are tombstoned. *)
Lemma mark_both w uid e auth_id e_auth :
  user_auth_details (datastore w) !! uid = Some e →
  deleted e = false →
  gae_id (fields e) = Some auth_id →
  user_identifiers (datastore w) !! auth_id = Some e_auth →
  deleted e_auth = false →
  mark_user_for_deletion uid w
  = (Ok tt,
     mkWorld
       (mkDatastore
          (<[auth_id := tombstoned e_auth (clock w (S (ticks w)))]>
             (user_identifiers (datastore w)))
          (<[uid := tombstoned e (clock w (ticks w))]>
             (user_auth_details (datastore w))))
       (clock w) (S (S (ticks w)))).
Proof.
  intros He Hd Hg Ha Hda.
  unfold mark_user_for_deletion, bind, read. simpl.
  rewrite get_UserAuthDetailsModel_lookup, He. simpl. rewrite Hd. simpl.
  rewrite Hg. unfold get_by_nullable_id, read.
  rewrite get_UserIdentifiersModel_lookup. simpl. rewrite Ha. simpl.
  by rewrite Hda.
Qed.

(** The user has a readable [UserAuthDetailsModel], and no readable
    [UserIdentifiersModel] under its auth ID: only the former is
    tombstoned.  When it has no auth ID at all, the get of the
    [UserIdentifiersModel] raises after the former is tombstoned. *)
Lemma mark_user_side_only w uid e :
  user_auth_details (datastore w) !! uid = Some e →
  deleted e = false →
  (∀ auth_id, gae_id (fields e) = Some auth_id →
     get (F:=UserIdentifiersProps) auth_id (datastore w) = None) →
  mark_user_for_deletion uid w
  = (match gae_id (fields e) with
     | Some _ => Ok tt
     | None => Raise BadRequestError
     end,
     mkWorld
       (mkDatastore
          (user_identifiers (datastore w))
          (<[uid := tombstoned e (clock w (ticks w))]>
             (user_auth_details (datastore w))))
       (clock w) (S (ticks w))).
Proof.
  intros He Hd Hg.
  unfold mark_user_for_deletion, bind, read. simpl.
  rewrite get_UserAuthDetailsModel_lookup, He. simpl. rewrite Hd. simpl.
  unfold get_by_nullable_id, read, raise.
  destruct (gae_id (fields e)) as [auth_id|]; simpl; [|done].
  specialize (Hg auth_id eq_refl).
  rewrite get_UserIdentifiersModel_lookup in *. simpl.
  by rewrite Hg.
Qed.

(** The user has no readable [UserAuthDetailsModel] and the reverse query
    finds a [UserIdentifiersModel]: it is tombstoned. *)
Lemma mark_by_reverse_query w uid m :
  get (F:=UserAuthDetailsProps) uid (datastore w) = None →
  get_by_user_id uid (datastore w) = Some m →
  mark_user_for_deletion uid w
  = (Ok tt,
     mkWorld
       (mkDatastore
          (<[id m := tombstoned (entity m) (clock w (ticks w))]>
             (user_identifiers (datastore w)))
          (user_auth_details (datastore w)))
       (clock w) (S (ticks w))).
Proof.
  intros Hg Hq.
  unfold mark_user_for_deletion, bind, read. simpl.
  rewrite Hg. simpl. by rewrite Hq.
Qed.

(** Neither exists: nothing happens. *)
Lemma mark_nothing w uid :
  get (F:=UserAuthDetailsProps) uid (datastore w) = None →
  get_by_user_id uid (datastore w) = None →
  mark_user_for_deletion uid w = (Ok tt, w).
Proof.
  intros Hg Hq.
  unfold mark_user_for_deletion, bind, read. simpl.
  rewrite Hg. simpl. rewrite Hq. by destruct w.
Qed.

(** C2: for an associated pair, after [mark_user_for_deletion] of the user
    [get_auth_id_from_user_id] returns None while
    [get_user_id_from_auth_id] still returns the user ID: the
    [UserIdentifiersModel] is tombstoned and stays readable by that lookup. *)
Theorem mark_then_lookups w auth_id uid :
  get_user_id_from_auth_id auth_id (datastore w) = Some uid →
  get_auth_id_from_user_id uid (datastore w) = Some auth_id →
  let call := mark_user_for_deletion uid in
  result_of call w = Ok tt
  ∧ get_auth_id_from_user_id uid (datastore_after call w) = None
  ∧ get_user_id_from_auth_id auth_id (datastore_after call w) = Some uid
  ∧ ∃ e, user_identifiers (datastore_after call w) !! auth_id = Some e
         ∧ deleted e = true ∧ user_id (fields e) = uid.
Proof.
  intros H1 H2 call.
  rewrite get_user_id_from_auth_id_lookup in H1.
  rewrite get_auth_id_from_user_id_lookup in H2.
  apply fmap_Some in H1 as (ea & Ha & Hu).
  apply bind_Some in H2 as (e & He & Hg).
  destruct (deleted e) eqn:Hd; [done|].
  unfold result_of, datastore_after, call.
  rewrite !get_user_id_from_auth_id_lookup, !get_auth_id_from_user_id_lookup.
  destruct (deleted ea) eqn:Hda.
  - rewrite (mark_user_side_only w uid e He Hd); simpl.
    + rewrite Hg, lookup_insert_eq, Ha. simpl. rewrite <-Hu. eauto 10.
    + intros a' Ha'. assert (a' = auth_id) as -> by congruence.
      rewrite get_UserIdentifiersModel_lookup, Ha. simpl. by rewrite Hda.
  - rewrite (mark_both w uid e auth_id ea He Hd Hg Ha Hda). simpl.
    rewrite !lookup_insert_eq. simpl. rewrite <-Hu. eauto 10.
Qed.

Lemma mark_then_lookups_witness :
  get_user_id_from_auth_id "a1" (datastore world_a1_u1) = Some "u1"
  ∧ get_auth_id_from_user_id "u1" (datastore world_a1_u1) = Some "a1"
  ∧ get_auth_id_from_user_id "u1" (datastore world_a1_u1_deleted) = None
  ∧ get_user_id_from_auth_id "a1" (datastore world_a1_u1_deleted) = Some "u1".
Proof.
  split; [reflexivity|]. split; [reflexivity|].
  destruct (mark_then_lookups world_a1_u1 "a1" "u1") as (_ & L1 & L2 & _);
    [reflexivity | reflexivity |].
  split; assumption.
Defined.

(** C10: when the user has no [UserAuthDetailsModel] and some
    [UserIdentifiersModel] names the user, [mark_user_for_deletion] finds a
    [UserIdentifiersModel] naming the user by the reverse query and
    tombstones it; it is the given one when that is the only one naming the
    user. *)
Theorem mark_finds_by_reverse_query w uid auth_id e :
  user_auth_details (datastore w) !! uid = None →
  user_identifiers (datastore w) !! auth_id = Some e →
  user_id (fields e) = uid →
  ∃ m,
    get_by_user_id uid (datastore w) = Some m
    ∧ user_identifiers (datastore w) !! id m = Some (entity m)
    ∧ user_id (fields (entity m)) = uid
    ∧ mark_user_for_deletion uid w
      = (Ok tt,
         mkWorld
           (mkDatastore
              (<[id m := tombstoned (entity m) (clock w (ticks w))]>
                 (user_identifiers (datastore w)))
              (user_auth_details (datastore w)))
           (clock w) (S (ticks w)))
    ∧ deleted (tombstoned (entity m) (clock w (ticks w))) = true
    ∧ ((∀ auth_id' e',
          user_identifiers (datastore w) !! auth_id' = Some e' →
          user_id (fields e') = uid → auth_id' = auth_id) →
       id m = auth_id ∧ entity m = e).
Proof.
  intros Hnone He Hu.
  destruct (get_by_user_id_is_Some _ _ _ _ He Hu) as [m Hm].
  destruct (get_by_user_id_Some _ _ _ Hm) as [Hm1 Hm2].
  exists m. split_and!; try done.
  - apply mark_by_reverse_query; [|done].
    by rewrite get_UserAuthDetailsModel_lookup, Hnone.
  - intros Huniq. assert (id m = auth_id) as Hid by eauto.
    split; [done|]. rewrite Hid in Hm1. congruence.
Qed.

Lemma mark_finds_by_reverse_query_witness :
  user_identifiers
    (datastore_after (mark_user_for_deletion "u1") world_one_sided) !! "a1"
  = Some (mkEntity (mkUserIdentifiersProps "u1") true (Some 7%Z)
            (Some (counting_clock 0))).
Proof.
  destruct (mark_finds_by_reverse_query world_one_sided "u1" "a1"
              (mkEntity (mkUserIdentifiersProps "u1") false (Some 7%Z) (Some 7%Z)))
    as (m & _ & _ & _ & Hrun & _ & Huniq);
    [reflexivity | reflexivity | reflexivity |].
  destruct Huniq as [Hid Hent].
  - intros auth_id' e' Hl _. simpl in Hl.
    apply lookup_singleton_Some in Hl. by destruct Hl.
  - unfold datastore_after. rewrite Hrun, Hid, Hent. simpl.
    apply lookup_insert_eq.
Defined.

(** C8: the batched lookups return, in the order of the keys, what the
    single lookups return for each key: a list as long as the input, with
    None exactly where the key has no association.  They are total
    functions of the datastore, so a missing record raises nothing. *)
Theorem get_multi_pointwise ds (user_ids auth_ids : list string) :
  get_multi_auth_ids_from_user_ids user_ids ds
  = (λ uid, get_auth_id_from_user_id uid ds) <$> user_ids
  ∧ get_multi_user_ids_from_auth_ids auth_ids ds
    = (λ auth_id, get_user_id_from_auth_id auth_id ds) <$> auth_ids
  ∧ length (get_multi_auth_ids_from_user_ids user_ids ds) = length user_ids
  ∧ length (get_multi_user_ids_from_auth_ids auth_ids ds) = length auth_ids
  ∧ (∀ i : nat,
       get_multi_auth_ids_from_user_ids user_ids ds !! i
       = (λ uid, get_auth_id_from_user_id uid ds) <$> user_ids !! i)
  ∧ (∀ i : nat,
       get_multi_user_ids_from_auth_ids auth_ids ds !! i
       = (λ auth_id, get_user_id_from_auth_id auth_id ds) <$> auth_ids !! i).
Proof.
  assert (get_multi_auth_ids_from_user_ids user_ids ds
          = (λ uid, get_auth_id_from_user_id uid ds) <$> user_ids) as H1.
  { unfold get_multi_auth_ids_from_user_ids, get_multi.
    rewrite <-list_fmap_compose. by apply list_fmap_ext. }
  assert (get_multi_user_ids_from_auth_ids auth_ids ds
          = (λ auth_id, get_user_id_from_auth_id auth_id ds) <$> auth_ids) as H2.
  { unfold get_multi_user_ids_from_auth_ids, get_multi.
    rewrite <-list_fmap_compose. by apply list_fmap_ext. }
  rewrite H1, H2. split_and!; try done.
  - apply length_fmap.
  - apply length_fmap.
  - intros i. apply list_lookup_fmap.
  - intros i. apply list_lookup_fmap.
Qed.

(** ** The sign-out hook *)

Lemma datetime_sub_in_range (t : datetime) (d : timedelta) w :
  (d ≤ t < d + _MAXORDINAL * MICROSECONDS_PER_DAY)%Z →
  datetime_sub t d w = (Ok (t - d)%Z, w).
Proof.
  intros H. unfold datetime_sub, toordinal.
  assert (0 ≤ (t - d) `div` MICROSECONDS_PER_DAY < _MAXORDINAL)%Z as Hq.
  { split.
    - apply Z.div_pos; [lia | done].
    - apply Z.div_lt_upper_bound; [done | lia]. }
  destruct (Z.ltb_spec 0 ((t - d) `div` MICROSECONDS_PER_DAY + 1)); [|lia].
  destruct (Z.leb_spec ((t - d) `div` MICROSECONDS_PER_DAY + 1) _MAXORDINAL);
    [done | lia].
Qed.

Lemma destroy_auth_session_cookie_run w response (cookie_name : string) :
  (timedelta_days 1 ≤ clock w (ticks w)
   < timedelta_days 1 + _MAXORDINAL * MICROSECONDS_PER_DAY)%Z →
  destroy_auth_session_cookie response cookie_name w
  = (add_header
       (split_1 ": "
          (SimpleCookie_output cookie_name EmptyString
             (strftime "%a, %d %b %Y %H:%M:%S GMT"
                (clock w (ticks w) - timedelta_days 1)%Z)))
       response
       (mkWorld (datastore w) (clock w) (S (ticks w)))).
Proof.
  intros H. unfold destroy_auth_session_cookie, bind, utcnow.
  by rewrite datetime_sub_in_range.
Qed.

(** C7: whatever the response holds, [destroy_auth_session] adds exactly
    three [Set-Cookie] headers to it, for ACSID, SACSID and
    dev_appserver_login in this order, each with an empty value and an
    [expires] attribute that is the clock reading of its loop round minus
    one day, printed with '%a, %d %b %Y %H:%M:%S GMT' (abbreviated weekday,
    day, abbreviated month, year, hours, minutes and seconds of that
    instant); the instant lies strictly before the reading.  The clock
    readings are taken to be datetimes from which a day can be
    subtracted. *)
Theorem destroy_auth_session_headers w response :
  (∀ i : nat, (i < 3)%nat →
     (timedelta_days 1 ≤ clock w (ticks w + i)
      < timedelta_days 1 + _MAXORDINAL * MICROSECONDS_PER_DAY)%Z) →
  let expires (i : nat) : datetime :=
    (clock w (ticks w + i) - timedelta_days 1)%Z in
  let format : string := "%a, %d %b %Y %H:%M:%S GMT" in
  destroy_auth_session response w
  = (Ok (mkResponse
           (headers response ++
            [("Set-Cookie", "ACSID=; expires=" +:+ strftime format (expires 0));
             ("Set-Cookie", "SACSID=; expires=" +:+ strftime format (expires 1));
             ("Set-Cookie",
              "dev_appserver_login=; expires=" +:+ strftime format (expires 2))])),
     mkWorld (datastore w) (clock w) (ticks w + 3))
  ∧ (∀ i : nat, (expires i < clock w (ticks w + i))%Z)
  ∧ (∀ t : datetime,
       strftime format t
       = day_abbr (weekday t) +:+ ", " +:+ zfill 2 (day_of t) +:+ " "
         +:+ month_abbr (month_of t) +:+ " " +:+ zfill 4 (year_of t) +:+ " "
         +:+ zfill 2 (hour_of t) +:+ ":" +:+ zfill 2 (minute_of t) +:+ ":"
         +:+ zfill 2 (second_of t) +:+ " GMT").
Proof.
  intros Hclock expires format. split_and!; [| |done].
  - pose proof (Hclock 0 ltac:(lia)) as H0.
    pose proof (Hclock 1 ltac:(lia)) as H1.
    pose proof (Hclock 2 ltac:(lia)) as H2.
    rewrite Nat.add_0_r in H0.
    replace (ticks w + 1) with (S (ticks w)) in H1 by lia.
    replace (ticks w + 2) with (S (S (ticks w))) in H2 by lia.
    unfold destroy_auth_session, foldM, bind.
    rewrite destroy_auth_session_cookie_run by done. simpl.
    rewrite destroy_auth_session_cookie_run by done. simpl.
    rewrite destroy_auth_session_cookie_run by done. simpl.
    unfold ret, expires, format.
    rewrite Nat.add_0_r.
    replace (ticks w + 1) with (S (ticks w)) by lia.
    replace (ticks w + 2) with (S (S (ticks w))) by lia.
    replace (ticks w + 3) with (S (S (S (ticks w)))) by lia.
    by rewrite <-!(assoc_L (++)).
  - intros i. unfold expires, timedelta_days, MICROSECONDS_PER_DAY. lia.
Qed.


Lemma counting_clock_in_range (i : nat) :
  (i < 3)%nat →
  (timedelta_days 1 ≤ counting_clock i
   < timedelta_days 1 + _MAXORDINAL * MICROSECONDS_PER_DAY)%Z.
Proof.
  intros Hi. unfold counting_clock.
  assert (datetime_of 2021 1 2 3 4 5 = 63745153445000000%Z) as ->
    by (vm_compute; reflexivity).
  unfold timedelta_days, MICROSECONDS_PER_DAY, _MAXORDINAL. lia.
Qed.

Lemma destroy_auth_session_headers_witness :
  result_of (destroy_auth_session (mkResponse [("Content-Type", "text/html")]))
    empty_world
  = Ok (mkResponse
          [("Content-Type", "text/html");
           ("Set-Cookie", "ACSID=; expires=Fri, 01 Jan 2021 03:04:05 GMT");
           ("Set-Cookie", "SACSID=; expires=Fri, 01 Jan 2021 03:04:06 GMT");
           ("Set-Cookie",
            "dev_appserver_login=; expires=Fri, 01 Jan 2021 03:04:07 GMT")]).
Proof.
  unfold result_of.
  rewrite (proj1 (destroy_auth_session_headers empty_world
                    (mkResponse [("Content-Type", "text/html")])
                    (λ i Hi, counting_clock_in_range i Hi))).
  vm_compute. reflexivity.
Defined.

(** ** Batched writes in closed form *)

Section BaseModelFacts.
Context {F : Type} `{!ModelClass F}.

Lemma update_timestamps_run (m : Model F) w :
  update_timestamps m w
  = (Ok (stamped (clock w (ticks w)) m),
     mkWorld (datastore w) (clock w) (S (ticks w))).
Proof. done. Qed.

Lemma update_timestamps_multi_run (models : list (Model F)) w :
  update_timestamps_multi models w
  = (Ok (stamped_from (clock w) (ticks w) models),
     mkWorld (datastore w) (clock w) (ticks w + length models)).
Proof.
  unfold update_timestamps_multi.
  revert w. induction models as [|m models IH]; intros w; simpl.
  - unfold ret. rewrite Nat.add_0_r. by destruct w.
  - unfold bind. rewrite update_timestamps_run, IH. simpl.
    unfold ret. do 3 f_equal. lia.
Qed.

End BaseModelFacts.

Lemma put_multi_UserIdentifiers (models : list (Model UserIdentifiersProps)) w :
  put_multi models w
  = (Ok tt,
     mkWorld
       (mkDatastore (put_all models (user_identifiers (datastore w)))
                    (user_auth_details (datastore w)))
       (clock w) (ticks w)).
Proof.
  unfold put_multi, put_all.
  revert w. induction models as [|m models IH]; intros w; simpl.
  - unfold ret. by destruct w as [[ids auths] clk t].
  - unfold bind, put, write at 1. simpl. by rewrite IH.
Qed.

Lemma put_multi_UserAuthDetails (models : list (Model UserAuthDetailsProps)) w :
  put_multi models w
  = (Ok tt,
     mkWorld
       (mkDatastore (user_identifiers (datastore w))
                    (put_all models (user_auth_details (datastore w))))
       (clock w) (ticks w)).
Proof.
  unfold put_multi, put_all.
  revert w. induction models as [|m models IH]; intros w; simpl.
  - unfold ret. by destruct w as [[ids auths] clk t].
  - unfold bind, put, write at 1. simpl. by rewrite IH.
Qed.

(** ** [associate_multi_auth_ids_with_user_ids] in closed form *)

Lemma ZIP_unpack_nonempty (pairs : list AuthIdUserIdPair) w :
  pairs ≠ [] → ZIP_unpack pairs w = (Ok (pairs.*1, pairs.*2), w).
Proof. by destruct pairs. Qed.

Lemma any_is_not_None_false {A} (xs : list (option A)) :
  any_is_not_None xs = false ↔ Forall (λ x, x = None) xs.
Proof.
  unfold any_is_not_None. induction xs as [|[x|] xs IH]; simpl.
  - split; [constructor | done].
  - split; [done | by inversion 1].
  - rewrite IH. split; [by constructor | by inversion 1].
Qed.

Lemma collisions_of_fmap (f : string → option string) (keys : list string) :
  collisions_of keys (f <$> keys) = omap (λ k, pair k <$> f k) keys.
Proof.
  unfold collisions_of. induction keys as [|k keys IH]; [done|].
  cbn [fmap list_fmap zip zip_with omap list_omap fst snd].
  destruct (f k); cbn [fmap option_fmap option_map]; by rewrite IH.
Qed.

Lemma omap_collisions_nil (f : string → option string) (keys : list string) :
  omap (λ k, pair k <$> f k) keys = [] ↔ Forall (λ k, f k = None) keys.
Proof.
  induction keys as [|k keys IH]; simpl.
  - split; [constructor | done].
  - destruct (f k) eqn:Hk; simpl.
    + split; [done | inversion 1; congruence].
    + rewrite IH. split; [by constructor | by inversion 1].
Qed.

Lemma auth_id_collisions_in_keys pairs ds :
  auth_id_collisions_in pairs ds
  = omap (λ k, pair k <$> get_user_id_from_auth_id k ds) pairs.*1.
Proof.
  unfold auth_id_collisions_in.
  induction pairs as [|p pairs IH]; simpl; [done|].
  destruct (get_user_id_from_auth_id p.1 ds); simpl; [f_equal|]; apply IH.
Qed.

Lemma user_id_collisions_in_keys pairs ds :
  user_id_collisions_in pairs ds
  = omap (λ k, pair k <$> get_auth_id_from_user_id k ds) pairs.*2.
Proof.
  unfold user_id_collisions_in.
  induction pairs as [|p pairs IH]; simpl; [done|].
  destruct (get_auth_id_from_user_id p.2 ds); simpl; [f_equal|]; apply IH.
Qed.

Lemma get_multi_user_ids_from_auth_ids_fmap auth_ids ds :
  get_multi_user_ids_from_auth_ids auth_ids ds
  = (λ auth_id, get_user_id_from_auth_id auth_id ds) <$> auth_ids.
Proof.
  unfold get_multi_user_ids_from_auth_ids, get_multi.
  rewrite <-list_fmap_compose. by apply list_fmap_ext.
Qed.

Lemma get_multi_auth_ids_from_user_ids_fmap user_ids ds :
  get_multi_auth_ids_from_user_ids user_ids ds
  = (λ uid, get_auth_id_from_user_id uid ds) <$> user_ids.
Proof.
  unfold get_multi_auth_ids_from_user_ids, get_multi.
  rewrite <-list_fmap_compose. by apply list_fmap_ext.
Qed.

Lemma any_user_id_collision pairs ds :
  any_is_not_None (get_multi_user_ids_from_auth_ids pairs.*1 ds)
  = bool_decide (auth_id_collisions_in pairs ds ≠ []).
Proof.
  rewrite get_multi_user_ids_from_auth_ids_fmap, auth_id_collisions_in_keys.
  destruct (any_is_not_None _) eqn:H; symmetry.
  - apply bool_decide_eq_true. intros Hnil.
    apply omap_collisions_nil in Hnil.
    apply not_false_iff_true in H. apply H, any_is_not_None_false.
    by apply Forall_fmap.
  - apply bool_decide_eq_false. intros Hnil. apply Hnil.
    apply omap_collisions_nil.
    apply any_is_not_None_false in H. by apply Forall_fmap in H.
Qed.

Lemma any_auth_id_collision pairs ds :
  any_is_not_None (get_multi_auth_ids_from_user_ids pairs.*2 ds)
  = bool_decide (user_id_collisions_in pairs ds ≠ []).
Proof.
  rewrite get_multi_auth_ids_from_user_ids_fmap, user_id_collisions_in_keys.
  destruct (any_is_not_None _) eqn:H; symmetry.
  - apply bool_decide_eq_true. intros Hnil.
    apply omap_collisions_nil in Hnil.
    apply not_false_iff_true in H. apply H, any_is_not_None_false.
    by apply Forall_fmap.
  - apply bool_decide_eq_false. intros Hnil. apply Hnil.
    apply omap_collisions_nil.
    apply any_is_not_None_false in H. by apply Forall_fmap in H.
Qed.

Lemma associate_multi_auth_id_collisions w pairs :
  auth_id_collisions_in pairs (datastore w) ≠ [] →
  associate_multi_auth_ids_with_user_ids pairs w
  = (Raise (AuthIdsAlreadyAssociated
              (auth_id_collisions_in pairs (datastore w))), w).
Proof.
  intros H.
  assert (pairs ≠ []) as Hne by (by intros ->).
  unfold associate_multi_auth_ids_with_user_ids, bind at 1.
  rewrite ZIP_unpack_nonempty by done. simpl.
  unfold bind at 1, read at 1. unfold bind at 1.
  rewrite any_user_id_collision, bool_decide_eq_true_2 by done.
  unfold raise.
  by rewrite get_multi_user_ids_from_auth_ids_fmap, collisions_of_fmap,
    auth_id_collisions_in_keys.
Qed.

Lemma associate_multi_user_id_collisions w pairs :
  auth_id_collisions_in pairs (datastore w) = [] →
  user_id_collisions_in pairs (datastore w) ≠ [] →
  associate_multi_auth_ids_with_user_ids pairs w
  = (Raise (UserIdsAlreadyAssociated
              (user_id_collisions_in pairs (datastore w))), w).
Proof.
  intros H1 H2.
  assert (pairs ≠ []) as Hne by (by intros ->).
  unfold associate_multi_auth_ids_with_user_ids, bind at 1.
  rewrite ZIP_unpack_nonempty by done. simpl.
  unfold bind at 1, read at 1. unfold bind at 1.
  rewrite any_user_id_collision, bool_decide_eq_false_2
    by (by intros []).
  unfold ret at 1. unfold bind at 1, read at 1. simpl. unfold bind at 1.
  rewrite any_auth_id_collision, bool_decide_eq_true_2 by done.
  unfold raise.
  by rewrite get_multi_auth_ids_from_user_ids_fmap, collisions_of_fmap,
    user_id_collisions_in_keys.
Qed.

Lemma elem_of_auth_id_collisions_in pairs ds auth_id user_id_collision :
  (auth_id, user_id_collision) ∈ auth_id_collisions_in pairs ds
  ↔ ∃ p, p ∈ pairs ∧ p.1 = auth_id
         ∧ get_user_id_from_auth_id auth_id ds = Some user_id_collision.
Proof.
  unfold auth_id_collisions_in. rewrite list_elem_of_omap. split.
  - intros (p & Hp & H). apply fmap_Some in H as (uc & Huc & [= -> ->]). eauto.
  - intros (p & Hp & <- & H). exists p. by rewrite H.
Qed.

Lemma elem_of_user_id_collisions_in pairs ds uid auth_id_collision :
  (uid, auth_id_collision) ∈ user_id_collisions_in pairs ds
  ↔ ∃ p, p ∈ pairs ∧ p.2 = uid
         ∧ get_auth_id_from_user_id uid ds = Some auth_id_collision.
Proof.
  unfold user_id_collisions_in. rewrite list_elem_of_omap. split.
  - intros (p & Hp & H). apply fmap_Some in H as (uc & Huc & [= -> ->]). eauto.
  - intros (p & Hp & <- & H). exists p. by rewrite H.
Qed.

(** C3, as the code has it: when a pair of the batch collides with the
    datastore, [associate_multi_auth_ids_with_user_ids] raises and leaves
    the world as it was, so nothing is written.  The error lists every pair
    whose auth ID already has a user ID; only when there is no such pair, it
    lists every pair whose user ID already has an auth ID. *)
Theorem associate_multi_collision w pairs :
  (∃ p, p ∈ pairs ∧ collides p (datastore w)) →
  associate_multi_auth_ids_with_user_ids pairs w
  = (Raise
       match auth_id_collisions_in pairs (datastore w) with
       | [] => UserIdsAlreadyAssociated
                 (user_id_collisions_in pairs (datastore w))
       | collisions => AuthIdsAlreadyAssociated collisions
       end, w)
  ∧ (∀ auth_id user_id_collision,
       (auth_id, user_id_collision)
         ∈ auth_id_collisions_in pairs (datastore w)
       ↔ ∃ p, p ∈ pairs ∧ p.1 = auth_id
              ∧ get_user_id_from_auth_id auth_id (datastore w)
                = Some user_id_collision)
  ∧ (∀ uid auth_id_collision,
       (uid, auth_id_collision)
         ∈ user_id_collisions_in pairs (datastore w)
       ↔ ∃ p, p ∈ pairs ∧ p.2 = uid
              ∧ get_auth_id_from_user_id uid (datastore w)
                = Some auth_id_collision).
Proof.
  intros (p & Hp & Hc). split_and!.
  - destruct (auth_id_collisions_in pairs (datastore w)) as [|c cs] eqn:Hauth.
    + apply associate_multi_user_id_collisions; [done|].
      destruct Hc as [[uc Huc]|[ac Hac]].
      * assert ((p.1, uc) ∈ auth_id_collisions_in pairs (datastore w)) as Hin
          by (apply elem_of_auth_id_collisions_in; eauto).
        rewrite Hauth in Hin. by apply not_elem_of_nil in Hin.
      * assert ((p.2, ac) ∈ user_id_collisions_in pairs (datastore w)) as Hin
          by (apply elem_of_user_id_collisions_in; eauto).
        intros Hnil. rewrite Hnil in Hin. by apply not_elem_of_nil in Hin.
    + rewrite <-Hauth. apply associate_multi_auth_id_collisions.
      by rewrite Hauth.
  - apply elem_of_auth_id_collisions_in.
  - apply elem_of_user_id_collisions_in.
Qed.

Lemma associate_multi_collision_witness :
  associate_multi_auth_ids_with_user_ids [("a1", "u1"); ("a2", "u2")]
    world_a1_u9_a9_u2
  = (Raise (AuthIdsAlreadyAssociated [("a1", "u9")]), world_a1_u9_a9_u2).
Proof.
  apply (proj1 (associate_multi_collision world_a1_u9_a9_u2
                  [("a1", "u1"); ("a2", "u2")]
                  (ex_intro _ ("a1", "u1")
                     (conj (list_elem_of_here _ _)
                        (or_introl (ex_intro _ "u9" eq_refl)))))).
Defined.

(** C3 as stated fails: in a world where auth ID [a1] and user ID [u2] are
    both taken, the batch [(a1, u1); (a2, u2)] raises an error that lists
    the first pair only, although the second pair collides as well. *)
Lemma associate_multi_omits_user_id_collision :
  let pairs := [("a1", "u1"); ("a2", "u2")] in
  let e := AuthIdsAlreadyAssociated [("a1", "u9")] in
  result_of (associate_multi_auth_ids_with_user_ids pairs) world_a1_u9_a9_u2
  = Raise e
  ∧ ("a2", "u2") ∈ pairs
  ∧ collides ("a2", "u2") (datastore world_a1_u9_a9_u2)
  ∧ ¬ lists_pair e ("a2", "u2").
Proof.
  split_and!.
  - reflexivity.
  - apply list_elem_of_further, list_elem_of_here.
  - right. by exists "a9".
  - simpl. intros H%list_elem_of_singleton. discriminate.
Qed.

Lemma zip_with_new_UserIdentifiersModel (pairs : list AuthIdUserIdPair) :
  zip_with new_UserIdentifiersModel pairs.*1 pairs.*2
  = (λ p, new_UserIdentifiersModel p.1 p.2) <$> pairs.
Proof. induction pairs as [|p pairs IH]; simpl; [done|]. by f_equal. Qed.

Lemma new_assoc_by_user_id_models_all (pairs : list AuthIdUserIdPair) ds :
  (∀ p, p ∈ pairs → get_auth_id_from_user_id p.2 ds = None) →
  new_assoc_by_user_id_models pairs.*1 pairs.*2
    (get_multi (F:=UserAuthDetailsProps) pairs.*2 false ds)
  = (λ p, new_UserAuthDetailsModel p.2 p.1) <$> pairs.
Proof.
  unfold new_assoc_by_user_id_models, get_multi.
  induction pairs as [|p pairs IH]; intros H; [done|].
  cbn [fmap list_fmap zip zip_with omap list_omap].
  fold (@fmap list _ _ _ (@fst string string) pairs).
  fold (@fmap list _ _ _ (@snd string string) pairs).
  rewrite <-IH by (intros; apply H; by apply list_elem_of_further).
  pose proof (H p (list_elem_of_here _ _)) as Hp.
  unfold get_auth_id_from_user_id in Hp.
  destruct (get p.2 ds) as [m|]; [|done].
  by rewrite Hp.
Qed.

Lemma associate_multi_no_collision w pairs :
  pairs ≠ [] →
  (∀ p, p ∈ pairs →
     get_user_id_from_auth_id p.1 (datastore w) = None
     ∧ get_auth_id_from_user_id p.2 (datastore w) = None) →
  associate_multi_auth_ids_with_user_ids pairs w
  = (Ok tt,
     mkWorld
       (mkDatastore
          (put_all
             (stamped_from (clock w) (ticks w)
                ((λ p, new_UserIdentifiersModel p.1 p.2) <$> pairs))
             (user_identifiers (datastore w)))
          (put_all
             (stamped_from (clock w) (ticks w + length pairs)
                ((λ p, new_UserAuthDetailsModel p.2 p.1) <$> pairs))
             (user_auth_details (datastore w))))
       (clock w) (ticks w + length pairs + length pairs)).
Proof.
  intros Hne H.
  assert (auth_id_collisions_in pairs (datastore w) = []) as H1.
  { rewrite auth_id_collisions_in_keys. apply omap_collisions_nil.
    apply Forall_fmap, Forall_forall. intros p Hp. by apply H. }
  assert (user_id_collisions_in pairs (datastore w) = []) as H2.
  { rewrite user_id_collisions_in_keys. apply omap_collisions_nil.
    apply Forall_fmap, Forall_forall. intros p Hp. by apply H. }
  unfold associate_multi_auth_ids_with_user_ids, bind at 1.
  rewrite ZIP_unpack_nonempty by done. simpl.
  unfold bind at 1, read at 1. unfold bind at 1.
  rewrite any_user_id_collision, bool_decide_eq_false_2 by (by intros []).
  unfold ret at 1. unfold bind at 1, read at 1. simpl. unfold bind at 1.
  rewrite any_auth_id_collision, bool_decide_eq_false_2 by (by intros []).
  unfold ret at 1. unfold bind at 1.
  rewrite update_timestamps_multi_run, zip_with_new_UserIdentifiersModel.
  unfold bind at 1. rewrite put_multi_UserIdentifiers. simpl.
  unfold bind at 1, read at 1. simpl.
  assert (∀ ids,
    new_assoc_by_user_id_models pairs.*1 pairs.*2
      (get_multi (F:=UserAuthDetailsProps) pairs.*2 false
         (mkDatastore ids (user_auth_details (datastore w))))
    = (λ p, new_UserAuthDetailsModel p.2 p.1) <$> pairs) as Hall.
  { intros ids. apply new_assoc_by_user_id_models_all. intros p Hp.
    destruct (H p Hp) as [_ Hp2].
    by rewrite get_auth_id_from_user_id_lookup in *. }
  rewrite Hall.
  destruct pairs as [|p pairs]; [done|].
  cbn [fmap list_fmap]. unfold bind.
  rewrite update_timestamps_multi_run, put_multi_UserAuthDetails. simpl.
  rewrite !length_fmap. done.
Qed.

(** ** Erasing timestamps *)

Lemma erase_put_all {F} (models : list (Model F)) (table : gmap string (Entity F)) :
  erase_timestamps <$> put_all models table
  = put_all (erase_model_timestamps <$> models) (erase_timestamps <$> table).
Proof.
  unfold put_all. revert table.
  induction models as [|m models IH]; intros table; simpl; [done|].
  by rewrite IH, fmap_insert.
Qed.

Lemma erase_stamped_from {F} clk tick (models : list (Model F)) :
  erase_model_timestamps <$> stamped_from clk tick models
  = erase_model_timestamps <$> models.
Proof.
  revert tick. induction models as [|m models IH]; intros tick; simpl; [done|].
  by f_equal.
Qed.

Lemma erase_new_models {A F} (f : A → string) (g : A → F) (l : list A) :
  erase_model_timestamps <$> ((λ x, new_model (f x) (g x)) <$> l)
  = (λ x, new_model (f x) (g x)) <$> l.
Proof. rewrite <-list_fmap_compose. by apply list_fmap_ext. Qed.

(** The datastore a batch of non-colliding pairs leaves, up to timestamps. *)
Lemma associate_multi_no_collision_erased w pairs :
  pairs ≠ [] →
  (∀ p, p ∈ pairs →
     get_user_id_from_auth_id p.1 (datastore w) = None
     ∧ get_auth_id_from_user_id p.2 (datastore w) = None) →
  result_of (associate_multi_auth_ids_with_user_ids pairs) w = Ok tt
  ∧ without_timestamps
      (datastore_after (associate_multi_auth_ids_with_user_ids pairs) w)
    = mkDatastore
        (put_all ((λ p, new_UserIdentifiersModel p.1 p.2) <$> pairs)
           (erase_timestamps <$> user_identifiers (datastore w)))
        (put_all ((λ p, new_UserAuthDetailsModel p.2 p.1) <$> pairs)
           (erase_timestamps <$> user_auth_details (datastore w))).
Proof.
  intros Hne H. unfold result_of, datastore_after.
  rewrite associate_multi_no_collision by done. split; [done|].
  unfold without_timestamps. simpl.
  rewrite !erase_put_all, !erase_stamped_from.
  unfold new_UserIdentifiersModel, new_UserAuthDetailsModel.
  by rewrite (erase_new_models (λ p : AuthIdUserIdPair, p.1)),
    (erase_new_models (λ p : AuthIdUserIdPair, p.2)).
Qed.

(** The datastore the sequential calls leave for the same pairs, up to
    timestamps. *)
Lemma associate_sequentially_erased pairs : ∀ w,
  NoDup pairs.*1 → NoDup pairs.*2 →
  (∀ p, p ∈ pairs →
     get_user_id_from_auth_id p.1 (datastore w) = None
     ∧ get_auth_id_from_user_id p.2 (datastore w) = None) →
  result_of (associate_sequentially pairs) w = Ok tt
  ∧ without_timestamps (datastore_after (associate_sequentially pairs) w)
    = mkDatastore
        (put_all ((λ p, new_UserIdentifiersModel p.1 p.2) <$> pairs)
           (erase_timestamps <$> user_identifiers (datastore w)))
        (put_all ((λ p, new_UserAuthDetailsModel p.2 p.1) <$> pairs)
           (erase_timestamps <$> user_auth_details (datastore w))).
Proof.
  unfold result_of, datastore_after, associate_sequentially.
  induction pairs as [|[auth_id uid] pairs IH]; intros w Hd1 Hd2 H.
  { done. }
  destruct (H (auth_id, uid) (list_elem_of_here _ _)) as [H1 H2].
  simpl in H1, H2.
  cbn [forM_]. unfold bind.
  rewrite (associate_no_collision w auth_id uid H1 H2).
  set (w1 := mkWorld _ _ _).
  apply NoDup_cons in Hd1 as [Hn1 Hd1]. apply NoDup_cons in Hd2 as [Hn2 Hd2].
  destruct (IH w1 Hd1 Hd2) as [IH1 IH2].
  { intros p Hp. destruct (H p (list_elem_of_further _ _ _ Hp)) as [Hp1 Hp2].
    rewrite get_user_id_from_auth_id_lookup, get_auth_id_from_user_id_lookup in *.
    subst w1. simpl.
    rewrite !lookup_insert_ne; [done| |].
    - intros ->. apply Hn2. apply list_elem_of_fmap. by exists p.
    - intros ->. apply Hn1. apply list_elem_of_fmap. by exists p. }
  split; [done|].
  rewrite IH2. subst w1. simpl. by rewrite !fmap_insert.
Qed.

(** C9: when the auth ID is free and the user already has a
    [UserAuthDetailsModel] without auth ID, the association succeeds and
    stores for the user a newly constructed model that holds the auth ID
    and nothing of the model that was there: [parent_user_id] is None,
    [deleted] is False and both timestamps are the reading of the clock at
    the write.  The batch does the same for its pair. *)
Theorem associate_replaces_model_without_auth_id w auth_id uid e :
  get_user_id_from_auth_id auth_id (datastore w) = None →
  user_auth_details (datastore w) !! uid = Some e →
  gae_id (fields e) = None →
  let written :=
    mkEntity (mkUserAuthDetailsProps (Some auth_id) None) false
      (Some (clock w (S (ticks w)))) (Some (clock w (S (ticks w)))) in
  let single := associate_auth_id_with_user_id (auth_id, uid) in
  let batch := associate_multi_auth_ids_with_user_ids [(auth_id, uid)] in
  result_of single w = Ok tt
  ∧ user_auth_details (datastore_after single w) !! uid = Some written
  ∧ result_of batch w = Ok tt
  ∧ user_auth_details (datastore_after batch w) !! uid = Some written.
Proof.
  intros H1 He Hg written single batch.
  assert (get_auth_id_from_user_id uid (datastore w) = None) as H2.
  { rewrite get_auth_id_from_user_id_lookup, He. simpl.
    by destruct (deleted e). }
  unfold result_of, datastore_after, single, batch.
  rewrite associate_no_collision by done.
  rewrite associate_multi_no_collision; [|done|].
  - simpl. rewrite !lookup_insert_eq.
    replace (ticks w + 1) with (S (ticks w)) by lia. done.
  - intros p ->%list_elem_of_singleton. done.
Qed.

Lemma associate_replaces_model_without_auth_id_witness :
  user_auth_details (datastore world_profile_user) !! "u1"
  = Some (mkEntity (mkUserAuthDetailsProps None (Some "u0")) false
            (Some 7%Z) (Some 8%Z))
  ∧ user_auth_details
      (datastore_after (associate_auth_id_with_user_id ("a1", "u1"))
         world_profile_user) !! "u1"
    = Some (mkEntity (mkUserAuthDetailsProps (Some "a1") None) false
              (Some (counting_clock 1)) (Some (counting_clock 1))).
Proof.
  split; [reflexivity|].
  apply (associate_replaces_model_without_auth_id world_profile_user "a1" "u1"
           (mkEntity (mkUserAuthDetailsProps None (Some "u0")) false
              (Some 7%Z) (Some 8%Z)));
    reflexivity.
Defined.

(** ** [mark_user_for_deletion], twice *)

Lemma mark_cases w uid :
  (∃ e auth_id e_auth,
     user_auth_details (datastore w) !! uid = Some e
     ∧ deleted e = false
     ∧ gae_id (fields e) = Some auth_id
     ∧ user_identifiers (datastore w) !! auth_id = Some e_auth
     ∧ deleted e_auth = false
     ∧ mark_user_for_deletion uid w
       = (Ok tt,
          mkWorld
            (mkDatastore
               (<[auth_id := tombstoned e_auth (clock w (S (ticks w)))]>
                  (user_identifiers (datastore w)))
               (<[uid := tombstoned e (clock w (ticks w))]>
                  (user_auth_details (datastore w))))
            (clock w) (S (S (ticks w)))))
  ∨ (∃ e,
       user_auth_details (datastore w) !! uid = Some e
       ∧ deleted e = false
       ∧ (∀ auth_id, gae_id (fields e) = Some auth_id →
            get (F:=UserIdentifiersProps) auth_id (datastore w) = None)
       ∧ mark_user_for_deletion uid w
         = (match gae_id (fields e) with
            | Some _ => Ok tt
            | None => Raise BadRequestError
            end,
            mkWorld
              (mkDatastore
                 (user_identifiers (datastore w))
                 (<[uid := tombstoned e (clock w (ticks w))]>
                    (user_auth_details (datastore w))))
              (clock w) (S (ticks w))))
  ∨ (∃ m,
       get (F:=UserAuthDetailsProps) uid (datastore w) = None
       ∧ get_by_user_id uid (datastore w) = Some m
       ∧ mark_user_for_deletion uid w
         = (Ok tt,
            mkWorld
              (mkDatastore
                 (<[id m := tombstoned (entity m) (clock w (ticks w))]>
                    (user_identifiers (datastore w)))
                 (user_auth_details (datastore w)))
              (clock w) (S (ticks w))))
  ∨ (get (F:=UserAuthDetailsProps) uid (datastore w) = None
     ∧ get_by_user_id uid (datastore w) = None
     ∧ mark_user_for_deletion uid w = (Ok tt, w)).
Proof.
  assert (get (F:=UserAuthDetailsProps) uid (datastore w) = None →
          (∃ m, get (F:=UserAuthDetailsProps) uid (datastore w) = None
                ∧ get_by_user_id uid (datastore w) = Some m
                ∧ mark_user_for_deletion uid w
                  = (Ok tt,
                     mkWorld
                       (mkDatastore
                          (<[id m := tombstoned (entity m) (clock w (ticks w))]>
                             (user_identifiers (datastore w)))
                          (user_auth_details (datastore w)))
                       (clock w) (S (ticks w))))
          ∨ (get (F:=UserAuthDetailsProps) uid (datastore w) = None
             ∧ get_by_user_id uid (datastore w) = None
             ∧ mark_user_for_deletion uid w = (Ok tt, w))) as Hreverse.
  { intros Hget. destruct (get_by_user_id uid (datastore w)) as [m|] eqn:Hq.
    - left. exists m. split_and!; try done. by apply mark_by_reverse_query.
    - right. split_and!; try done. by apply mark_nothing. }
  destruct (user_auth_details (datastore w) !! uid) as [e|] eqn:He;
    [destruct (deleted e) eqn:Hd|].
  - do 2 right. apply Hreverse.
    rewrite get_UserAuthDetailsModel_lookup, He. simpl. by rewrite Hd.
  - destruct (gae_id (fields e)) as [auth_id|] eqn:Hg.
    + destruct (user_identifiers (datastore w) !! auth_id) as [ea|] eqn:Hea;
        [destruct (deleted ea) eqn:Hda|].
      * right; left. exists e. split_and!; try done.
        { intros a' Ha'. assert (a' = auth_id) as -> by congruence.
          rewrite get_UserIdentifiersModel_lookup, Hea.
          simpl. by rewrite Hda. }
        apply mark_user_side_only; try done.
        rewrite Hg. intros a' Ha'.
        assert (a' = auth_id) as -> by congruence.
        rewrite get_UserIdentifiersModel_lookup, Hea. simpl. by rewrite Hda.
      * left. exists e, auth_id, ea. split_and!; try done.
        by apply mark_both.
      * right; left. exists e. split_and!; try done.
        { intros a' Ha'. assert (a' = auth_id) as -> by congruence.
          by rewrite get_UserIdentifiersModel_lookup, Hea. }
        apply mark_user_side_only; try done.
        rewrite Hg. intros a' Ha'.
        assert (a' = auth_id) as -> by congruence.
        by rewrite get_UserIdentifiersModel_lookup, Hea.
    + right; left. exists e. split_and!; try done.
      { intros a' Ha'. congruence. }
      apply mark_user_side_only; try done. intros a' Ha'. congruence.
  - do 2 right. apply Hreverse.
    by rewrite get_UserAuthDetailsModel_lookup, He.
Qed.

(** The first call succeeds unless the user has a live
    [UserAuthDetailsModel] without auth ID, and it leaves no readable
    [UserAuthDetailsModel] for the user; when every live
    [UserIdentifiersModel] naming the user was the one of the user's auth
    ID, it leaves none of them live. *)
Lemma mark_first_call w uid :
  let w1 := world_after (mark_user_for_deletion uid) w in
  ((∀ e, user_auth_details (datastore w) !! uid = Some e →
         deleted e = false → is_Some (gae_id (fields e))) →
   result_of (mark_user_for_deletion uid) w = Ok tt)
  ∧ get (F:=UserAuthDetailsProps) uid (datastore w1) = None
  ∧ ((∀ auth_id e,
        user_identifiers (datastore w) !! auth_id = Some e →
        user_id (fields e) = uid → deleted e = false →
        get_auth_id_from_user_id uid (datastore w) = Some auth_id) →
     ∀ auth_id e,
       user_identifiers (datastore w1) !! auth_id = Some e →
       user_id (fields e) = uid → deleted e = true).
Proof.
  unfold world_after, result_of.
  destruct (mark_cases w uid)
    as [(e & a & ea & He & Hd & Hg & Hea & Hda & ->)
       |[(e & He & Hd & Hg & ->)
       |[(m & Hget & Hq & ->)
       |(Hget & Hq & ->)]]]; simpl;
    (split; [try done; intros Hauth; by destruct (Hauth e He Hd) as [a ->]|]).
  - split.
    { rewrite get_UserAuthDetailsModel_lookup. simpl.
      by rewrite lookup_insert_eq. }
    intros Hsym a' e' He' Hu'.
    destruct (decide (a = a')) as [<-|Hne].
    + rewrite lookup_insert_eq in He'. by injection He' as <-.
    + rewrite lookup_insert_ne in He' by done.
      destruct (deleted e') eqn:Hd'; [done|].
      specialize (Hsym a' e' He' Hu' Hd').
      rewrite get_auth_id_from_user_id_lookup, He in Hsym. simpl in Hsym.
      rewrite Hd in Hsym. congruence.
  - split.
    { rewrite get_UserAuthDetailsModel_lookup. simpl.
      by rewrite lookup_insert_eq. }
    intros Hsym a' e' He' Hu'.
    destruct (deleted e') eqn:Hd'; [done|].
    specialize (Hsym a' e' He' Hu' Hd').
    rewrite get_auth_id_from_user_id_lookup, He in Hsym. simpl in Hsym.
    rewrite Hd in Hsym. specialize (Hg a' Hsym).
    rewrite get_UserIdentifiersModel_lookup, He' in Hg. simpl in Hg.
    by rewrite Hd' in Hg.
  - split.
    { by rewrite get_UserAuthDetailsModel_lookup in *. }
    intros Hsym a' e' He' Hu'.
    destruct (decide (id m = a')) as [<-|Hne].
    + rewrite lookup_insert_eq in He'. by injection He' as <-.
    + rewrite lookup_insert_ne in He' by done.
      destruct (deleted e') eqn:Hd'; [done|].
      specialize (Hsym a' e' He' Hu' Hd').
      unfold get_auth_id_from_user_id in Hsym. by rewrite Hget in Hsym.
  - split; [done|].
    intros Hsym a' e' He' Hu'.
    by destruct (get_by_user_id_None _ _ _ _ Hq He').
Qed.

Lemma erase_tombstoned_deleted {F} (e : Entity F) now :
  deleted e = true → erase_timestamps (tombstoned e now) = erase_timestamps e.
Proof. intros H. unfold erase_timestamps, tombstoned. simpl. by rewrite H. Qed.

(** * Further properties of the association store *)

(** ** What a call leaves alone *)

Lemma associate_world_cases w auth_id uid :
  (associate_auth_id_with_user_id (auth_id, uid) w).2 = w
  ∨ (get_user_id_from_auth_id auth_id (datastore w) = None
     ∧ get_auth_id_from_user_id uid (datastore w) = None
     ∧ associate_auth_id_with_user_id (auth_id, uid) w
       = (Ok tt,
          mkWorld
            (mkDatastore
               (<[auth_id := fresh_UserIdentifiers uid (clock w (ticks w))]>
                  (user_identifiers (datastore w)))
               (<[uid := fresh_UserAuthDetails auth_id (clock w (S (ticks w)))]>
                  (user_auth_details (datastore w))))
            (clock w) (S (S (ticks w))))).
Proof.
  destruct (get_user_id_from_auth_id auth_id (datastore w)) as [uc|] eqn:H1.
  { left. by rewrite (associate_auth_id_collision _ _ _ _ H1). }
  destruct (get_auth_id_from_user_id uid (datastore w)) as [ac|] eqn:H2.
  { left. by rewrite (associate_user_id_collision _ _ _ _ H1 H2). }
  right. split_and!; try done. by apply associate_no_collision.
Qed.

(** X1: whether it succeeds or raises, [associate_auth_id_with_user_id]
    leaves the lookups of every other auth ID and of every other user ID as
    they were, and it never changes a lookup that returned an ID before the
    call. *)
Theorem associate_keeps_lookups w auth_id uid :
  let ds := datastore w in
  let ds' := datastore_after (associate_auth_id_with_user_id (auth_id, uid)) w in
  (∀ auth_id', auth_id' ≠ auth_id →
     get_user_id_from_auth_id auth_id' ds'
     = get_user_id_from_auth_id auth_id' ds)
  ∧ (∀ uid', uid' ≠ uid →
       get_auth_id_from_user_id uid' ds' = get_auth_id_from_user_id uid' ds)
  ∧ (∀ auth_id' uid',
       get_user_id_from_auth_id auth_id' ds = Some uid' →
       get_user_id_from_auth_id auth_id' ds' = Some uid')
  ∧ (∀ uid' auth_id',
       get_auth_id_from_user_id uid' ds = Some auth_id' →
       get_auth_id_from_user_id uid' ds' = Some auth_id').
Proof.
  intros ds ds'. unfold ds', ds, datastore_after.
  destruct (associate_world_cases w auth_id uid) as [->|(H1 & H2 & ->)];
    [done|]. simpl.
  split_and!.
  - intros a' Hne. rewrite !get_user_id_from_auth_id_lookup. simpl.
    by rewrite lookup_insert_ne.
  - intros u' Hne. rewrite !get_auth_id_from_user_id_lookup. simpl.
    by rewrite lookup_insert_ne.
  - intros a' u' H. destruct (decide (a' = auth_id)) as [->|Hne];
      [congruence|].
    rewrite get_user_id_from_auth_id_lookup in *. simpl.
    by rewrite lookup_insert_ne.
  - intros u' a' H. destruct (decide (u' = uid)) as [->|Hne];
      [congruence|].
    rewrite get_auth_id_from_user_id_lookup in *. simpl.
    by rewrite lookup_insert_ne.
Qed.

(** ** The outcome of a batch *)

Lemma auth_id_collisions_in_nil pairs ds :
  auth_id_collisions_in pairs ds = []
  ↔ ∀ p, p ∈ pairs → get_user_id_from_auth_id p.1 ds = None.
Proof.
  rewrite auth_id_collisions_in_keys, omap_collisions_nil, Forall_fmap,
    Forall_forall. done.
Qed.

Lemma user_id_collisions_in_nil pairs ds :
  user_id_collisions_in pairs ds = []
  ↔ ∀ p, p ∈ pairs → get_auth_id_from_user_id p.2 ds = None.
Proof.
  rewrite user_id_collisions_in_keys, omap_collisions_nil, Forall_fmap,
    Forall_forall. done.
Qed.

Lemma associate_multi_world_cases w pairs :
  (result_of (associate_multi_auth_ids_with_user_ids pairs) w ≠ Ok tt
   ∧ world_after (associate_multi_auth_ids_with_user_ids pairs) w = w
   ∧ (pairs = []
      ∨ ∃ p, p ∈ pairs
             ∧ (is_Some (get_user_id_from_auth_id p.1 (datastore w))
                ∨ is_Some (get_auth_id_from_user_id p.2 (datastore w)))))
  ∨ (pairs ≠ []
     ∧ (∀ p, p ∈ pairs →
          get_user_id_from_auth_id p.1 (datastore w) = None
          ∧ get_auth_id_from_user_id p.2 (datastore w) = None)
     ∧ associate_multi_auth_ids_with_user_ids pairs w
       = (Ok tt,
          mkWorld
            (mkDatastore
               (put_all
                  (stamped_from (clock w) (ticks w)
                     ((λ p, new_UserIdentifiersModel p.1 p.2) <$> pairs))
                  (user_identifiers (datastore w)))
               (put_all
                  (stamped_from (clock w) (ticks w + length pairs)
                     ((λ p, new_UserAuthDetailsModel p.2 p.1) <$> pairs))
                  (user_auth_details (datastore w))))
            (clock w) (ticks w + length pairs + length pairs))).
Proof.
  unfold result_of, world_after.
  destruct (decide (pairs = [])) as [->|Hne].
  { left. split_and!; [done|done|by left]. }
  destruct (auth_id_collisions_in pairs (datastore w)) as [|c cs] eqn:Ha.
  - destruct (user_id_collisions_in pairs (datastore w)) as [|d ds] eqn:Hu.
    + right. split; [done|].
      assert (∀ p, p ∈ pairs →
                get_user_id_from_auth_id p.1 (datastore w) = None
                ∧ get_auth_id_from_user_id p.2 (datastore w) = None) as H.
      { intros p Hp. split.
        - by apply (proj1 (auth_id_collisions_in_nil _ _) Ha).
        - by apply (proj1 (user_id_collisions_in_nil _ _) Hu). }
      split; [done|]. by apply associate_multi_no_collision.
    + left. rewrite associate_multi_user_id_collisions by (by rewrite ?Hu).
      split_and!; [done|done|]. right.
      destruct d as [u ac].
      assert ((u, ac) ∈ user_id_collisions_in pairs (datastore w)) as Hin
        by (rewrite Hu; apply list_elem_of_here).
      apply elem_of_user_id_collisions_in in Hin as (p & Hp & <- & Hl).
      exists p. split; [done|]. right. eauto.
  - left. rewrite associate_multi_auth_id_collisions by (by rewrite Ha).
    split_and!; [done|done|]. right.
    destruct c as [a uc].
    assert ((a, uc) ∈ auth_id_collisions_in pairs (datastore w)) as Hin
      by (rewrite Ha; apply list_elem_of_here).
    apply elem_of_auth_id_collisions_in in Hin as (p & Hp & <- & Hl).
    exists p. split; [done|]. left. eauto.
Qed.

(** X2: [associate_multi_auth_ids_with_user_ids] succeeds exactly when the
    batch is not empty and no ID of any of its pairs is associated in the
    datastore; pairs that collide with each other do not make it raise.
    Whenever it raises (for the empty batch too) it leaves the world, the
    datastore and the clock, as it was. *)
Theorem associate_multi_outcome w pairs :
  let call := associate_multi_auth_ids_with_user_ids pairs in
  (result_of call w = Ok tt
   ↔ pairs ≠ []
     ∧ ∀ p, p ∈ pairs →
         get_user_id_from_auth_id p.1 (datastore w) = None
         ∧ get_auth_id_from_user_id p.2 (datastore w) = None)
  ∧ (result_of call w ≠ Ok tt → world_after call w = w)
  ∧ (pairs = [] → call w = (Raise ValueError, w)).
Proof.
  intros call. unfold call.
  destruct (associate_multi_world_cases w pairs)
    as [(Hr & Hw & Hwhy)|(Hne & H & Hrun)].
  - split_and!; [|done|by intros ->].
    split; [done|]. intros [Hne H].
    destruct Hwhy as [->|(p & Hp & [[x Hx]|[x Hx]])]; [done| |].
    + destruct (H p Hp) as [H1 _]. congruence.
    + destruct (H p Hp) as [_ H2]. congruence.
  - unfold result_of. rewrite Hrun. simpl. split_and!; [done|done|done].
Qed.

Lemma associate_multi_outcome_witness :
  associate_multi_auth_ids_with_user_ids [] world_a1_u1
  = (Raise ValueError, world_a1_u1).
Proof.
  by apply (proj2 (proj2 (associate_multi_outcome world_a1_u1 []))).
Defined.

Lemma associate_keeps_lookups_witness :
  get_user_id_from_auth_id "a1"
    (datastore_after (associate_auth_id_with_user_id ("a2", "u2")) world_a1_u1)
  = Some "u1".
Proof.
  apply (proj1 (proj2 (proj2 (associate_keeps_lookups world_a1_u1 "a2" "u2")))).
  reflexivity.
Defined.

(** X3: a batch of one pair leaves exactly the world that
    [associate_auth_id_with_user_id] leaves for that pair, timestamps and
    clock included, and it succeeds exactly when the single call does. *)
Theorem associate_multi_singleton w auth_id uid :
  let batch := associate_multi_auth_ids_with_user_ids [(auth_id, uid)] in
  let single := associate_auth_id_with_user_id (auth_id, uid) in
  world_after batch w = world_after single w
  ∧ (result_of batch w = Ok tt ↔ result_of single w = Ok tt).
Proof.
  intros batch single. unfold batch, single, world_after, result_of.
  destruct (associate_multi_world_cases w [(auth_id, uid)])
    as [(Hr & Hw & Hwhy)|(_ & H & Hrun)].
  - unfold world_after, result_of in *. rewrite Hw.
    destruct Hwhy as [?|(p & ->%list_elem_of_singleton & Hc)]; [done|].
    simpl in Hc.
    destruct (get_user_id_from_auth_id auth_id (datastore w)) as [uc|] eqn:H1.
    + rewrite (associate_auth_id_collision _ _ _ _ H1). done.
    + destruct Hc as [[? ?]|[ac H2]]; [done|].
      rewrite (associate_user_id_collision _ _ _ _ H1 H2). done.
  - destruct (H (auth_id, uid) (list_elem_of_here _ _)) as [H1 H2].
    rewrite Hrun, associate_no_collision by done. simpl.
    replace (ticks w + 1) with (S (ticks w)) by lia.
    replace (S (ticks w) + 1) with (S (S (ticks w))) by lia.
    done.
Qed.

(** ** Lookups in a table after [put_multi] *)

Lemma put_all_lookup_notin {F} (models : list (Model F)) table (k : string) :
  k ∉ id <$> models → put_all models table !! k = table !! k.
Proof.
  unfold put_all. revert table.
  induction models as [|m models IH]; intros table Hk; simpl; [done|].
  rewrite fmap_cons, not_elem_of_cons in Hk. destruct Hk as [Hne Hk].
  rewrite IH by done. by rewrite lookup_insert_ne.
Qed.

Lemma put_all_lookup_in {F} (models : list (Model F)) table (m : Model F) :
  NoDup (id <$> models) → m ∈ models →
  put_all models table !! id m = Some (entity m).
Proof.
  unfold put_all. revert table.
  induction models as [|m0 models IH]; intros table Hd Hm; simpl.
  { by apply not_elem_of_nil in Hm. }
  rewrite fmap_cons in Hd. apply NoDup_cons in Hd as [Hn Hd].
  apply elem_of_cons in Hm as [->|Hm].
  - fold (put_all models (<[id m0:=entity m0]> table)).
    rewrite put_all_lookup_notin by done. apply lookup_insert_eq.
  - by apply IH.
Qed.

Lemma get_user_id_from_auth_id_erased auth_id ds :
  get_user_id_from_auth_id auth_id (without_timestamps ds)
  = get_user_id_from_auth_id auth_id ds.
Proof.
  rewrite !get_user_id_from_auth_id_lookup. simpl. rewrite lookup_fmap.
  by destruct (user_identifiers ds !! auth_id).
Qed.

Lemma get_auth_id_from_user_id_erased uid ds :
  get_auth_id_from_user_id uid (without_timestamps ds)
  = get_auth_id_from_user_id uid ds.
Proof.
  rewrite !get_auth_id_from_user_id_lookup. simpl. rewrite lookup_fmap.
  by destruct (user_auth_details ds !! uid).
Qed.

Lemma fmap_fst_new_UserIdentifiersModel (pairs : list AuthIdUserIdPair) :
  id <$> ((λ p, new_UserIdentifiersModel p.1 p.2) <$> pairs) = pairs.*1.
Proof. rewrite <-list_fmap_compose. by apply list_fmap_ext. Qed.

Lemma fmap_snd_new_UserAuthDetailsModel (pairs : list AuthIdUserIdPair) :
  id <$> ((λ p, new_UserAuthDetailsModel p.2 p.1) <$> pairs) = pairs.*2.
Proof. rewrite <-list_fmap_compose. by apply list_fmap_ext. Qed.

(** X4: for a batch with pairwise distinct auth IDs and pairwise distinct
    user IDs, none of them associated in the datastore, the batch succeeds
    and afterwards each of its pairs is found by both lookups. *)
Theorem associate_multi_then_lookups w pairs auth_id uid :
  NoDup pairs.*1 → NoDup pairs.*2 →
  (∀ p, p ∈ pairs →
     get_user_id_from_auth_id p.1 (datastore w) = None
     ∧ get_auth_id_from_user_id p.2 (datastore w) = None) →
  (auth_id, uid) ∈ pairs →
  let call := associate_multi_auth_ids_with_user_ids pairs in
  result_of call w = Ok tt
  ∧ get_user_id_from_auth_id auth_id (datastore_after call w) = Some uid
  ∧ get_auth_id_from_user_id uid (datastore_after call w) = Some auth_id.
Proof.
  intros Hd1 Hd2 H Hin call.
  assert (pairs ≠ []) as Hne by (intros ->; by apply not_elem_of_nil in Hin).
  destruct (associate_multi_no_collision_erased w pairs Hne H) as [Hok Her].
  split; [done|]. fold call in Her.
  rewrite <-get_user_id_from_auth_id_erased, <-get_auth_id_from_user_id_erased.
  rewrite Her.
  rewrite get_user_id_from_auth_id_lookup, get_auth_id_from_user_id_lookup.
  simpl. split.
  - rewrite (put_all_lookup_in _ _ (new_UserIdentifiersModel auth_id uid)).
    + done.
    + by rewrite fmap_fst_new_UserIdentifiersModel.
    + apply list_elem_of_fmap. by exists (auth_id, uid).
  - rewrite (put_all_lookup_in _ _ (new_UserAuthDetailsModel uid auth_id)).
    + done.
    + by rewrite fmap_snd_new_UserAuthDetailsModel.
    + apply list_elem_of_fmap. by exists (auth_id, uid).
Qed.

Lemma associate_multi_then_lookups_witness :
  let call :=
    associate_multi_auth_ids_with_user_ids [("a2", "u2"); ("a3", "u3")] in
  get_user_id_from_auth_id "a3" (datastore_after call world_a1_u1) = Some "u3"
  ∧ get_auth_id_from_user_id "u3" (datastore_after call world_a1_u1) = Some "a3".
Proof.
  apply (associate_multi_then_lookups world_a1_u1
           [("a2", "u2"); ("a3", "u3")] "a3" "u3").
  - compute_done.
  - compute_done.
  - intros p [->| ->%list_elem_of_singleton]%elem_of_cons;
      split; reflexivity.
  - apply list_elem_of_further, list_elem_of_here.
Defined.

Lemma fmap_id_stamped_from {F} clk tick (models : list (Model F)) :
  id <$> stamped_from clk tick models = id <$> models.
Proof.
  revert tick. induction models as [|m models IH]; intros tick; simpl; [done|].
  by f_equal.
Qed.

(** X5: whether it succeeds or raises,
    [associate_multi_auth_ids_with_user_ids] leaves the lookups of every
    auth ID and user ID outside the batch as they were, and it never changes
    a lookup that returned an ID before the call. *)
Theorem associate_multi_keeps_lookups w pairs :
  let ds := datastore w in
  let ds' :=
    datastore_after (associate_multi_auth_ids_with_user_ids pairs) w in
  (∀ auth_id, auth_id ∉ pairs.*1 →
     get_user_id_from_auth_id auth_id ds' = get_user_id_from_auth_id auth_id ds)
  ∧ (∀ uid, uid ∉ pairs.*2 →
       get_auth_id_from_user_id uid ds' = get_auth_id_from_user_id uid ds)
  ∧ (∀ auth_id uid,
       get_user_id_from_auth_id auth_id ds = Some uid →
       get_user_id_from_auth_id auth_id ds' = Some uid)
  ∧ (∀ uid auth_id,
       get_auth_id_from_user_id uid ds = Some auth_id →
       get_auth_id_from_user_id uid ds' = Some auth_id).
Proof.
  intros ds ds'. unfold ds', ds, datastore_after.
  destruct (associate_multi_world_cases w pairs)
    as [(_ & Hw & _)|(_ & H & Hrun)].
  { unfold world_after in Hw. by rewrite Hw. }
  rewrite Hrun. simpl.
  assert (∀ auth_id, auth_id ∉ pairs.*1 →
    get_user_id_from_auth_id auth_id
      (mkDatastore
         (put_all
            (stamped_from (clock w) (ticks w)
               ((λ p, new_UserIdentifiersModel p.1 p.2) <$> pairs))
            (user_identifiers (datastore w)))
         (put_all
            (stamped_from (clock w) (ticks w + length pairs)
               ((λ p, new_UserAuthDetailsModel p.2 p.1) <$> pairs))
            (user_auth_details (datastore w))))
    = get_user_id_from_auth_id auth_id (datastore w)) as Hframe1.
  { intros a Ha. rewrite !get_user_id_from_auth_id_lookup. simpl.
    rewrite put_all_lookup_notin; [done|].
    by rewrite fmap_id_stamped_from, fmap_fst_new_UserIdentifiersModel. }
  assert (∀ uid, uid ∉ pairs.*2 →
    get_auth_id_from_user_id uid
      (mkDatastore
         (put_all
            (stamped_from (clock w) (ticks w)
               ((λ p, new_UserIdentifiersModel p.1 p.2) <$> pairs))
            (user_identifiers (datastore w)))
         (put_all
            (stamped_from (clock w) (ticks w + length pairs)
               ((λ p, new_UserAuthDetailsModel p.2 p.1) <$> pairs))
            (user_auth_details (datastore w))))
    = get_auth_id_from_user_id uid (datastore w)) as Hframe2.
  { intros u Hu. rewrite !get_auth_id_from_user_id_lookup. simpl.
    rewrite put_all_lookup_notin; [done|].
    by rewrite fmap_id_stamped_from, fmap_snd_new_UserAuthDetailsModel. }
  split_and!; [done|done| |].
  - intros a u Hl. rewrite Hframe1; [done|].
    intros (p & -> & Hp)%list_elem_of_fmap.
    destruct (H p Hp) as [H1 _]. congruence.
  - intros u a Hl. rewrite Hframe2; [done|].
    intros (p & -> & Hp)%list_elem_of_fmap.
    destruct (H p Hp) as [_ H2]. congruence.
Qed.

Lemma associate_multi_keeps_lookups_witness :
  get_auth_id_from_user_id "u1"
    (datastore_after
       (associate_multi_auth_ids_with_user_ids [("a2", "u2"); ("a3", "u3")])
       world_a1_u1)
  = Some "a1".
Proof.
  apply (proj2 (proj2 (proj2 (associate_multi_keeps_lookups world_a1_u1
                                [("a2", "u2"); ("a3", "u3")])))).
  reflexivity.
Defined.

(** X6: the batch does not compare its pairs with each other.  With one
    free auth ID paired with two different free user IDs it succeeds, and
    afterwards both users look up the auth ID while the auth ID looks up the
    second user only; the two single calls in a row raise at the second
    pair instead. *)
Theorem associate_multi_duplicate_auth_id w auth_id uid1 uid2 :
  uid1 ≠ uid2 →
  get_user_id_from_auth_id auth_id (datastore w) = None →
  get_auth_id_from_user_id uid1 (datastore w) = None →
  get_auth_id_from_user_id uid2 (datastore w) = None →
  let batch :=
    associate_multi_auth_ids_with_user_ids
      [(auth_id, uid1); (auth_id, uid2)] in
  result_of batch w = Ok tt
  ∧ get_user_id_from_auth_id auth_id (datastore_after batch w) = Some uid2
  ∧ get_auth_id_from_user_id uid1 (datastore_after batch w) = Some auth_id
  ∧ get_auth_id_from_user_id uid2 (datastore_after batch w) = Some auth_id
  ∧ result_of
      (do associate_auth_id_with_user_id (auth_id, uid1)
       then associate_auth_id_with_user_id (auth_id, uid2)) w
    = Raise (AuthIdAlreadyAssociated auth_id uid1).
Proof.
  intros Hne H0 H1 H2 batch.
  assert (∀ p, p ∈ [(auth_id, uid1); (auth_id, uid2)] →
            get_user_id_from_auth_id p.1 (datastore w) = None
            ∧ get_auth_id_from_user_id p.2 (datastore w) = None) as H.
  { intros p [->| ->%list_elem_of_singleton]%elem_of_cons; by split. }
  unfold batch, result_of, datastore_after.
  rewrite associate_multi_no_collision by done.
  rewrite !get_user_id_from_auth_id_lookup, !get_auth_id_from_user_id_lookup.
  split_and!.
  - done.
  - simpl. by rewrite lookup_insert_eq.
  - simpl. by rewrite lookup_insert_ne, lookup_insert_eq.
  - simpl. by rewrite lookup_insert_eq.
  - unfold bind. rewrite associate_no_collision by done.
    rewrite (associate_auth_id_collision _ auth_id uid2 uid1); [done|].
    rewrite get_user_id_from_auth_id_lookup. simpl.
    by rewrite lookup_insert_eq.
Qed.

Lemma associate_multi_duplicate_auth_id_witness :
  let batch :=
    associate_multi_auth_ids_with_user_ids [("a2", "u2"); ("a2", "u3")] in
  get_user_id_from_auth_id "a2" (datastore_after batch world_a1_u1) = Some "u3"
  ∧ get_auth_id_from_user_id "u2" (datastore_after batch world_a1_u1)
    = Some "a2".
Proof.
  destruct (associate_multi_duplicate_auth_id world_a1_u1 "a2" "u2" "u3")
    as (_ & L1 & L2 & _); [done | reflexivity | reflexivity | reflexivity |].
  split; assumption.
Defined.

(** ** What [mark_user_for_deletion] keeps *)

Lemma kept_as_refl {F} (e : Entity F) : kept_as e e.
Proof. by split_and!. Qed.

Lemma kept_as_tombstoned {F} (e : Entity F) now : kept_as e (tombstoned e now).
Proof.
  split_and!; [done|done|]. intros t Ht. simpl. by rewrite Ht.
Qed.

Lemma option_Forall2_kept_as_insert {F} (table : gmap string (Entity F))
    (k k' : string) (e : Entity F) now :
  table !! k = Some e →
  option_Forall2 kept_as (table !! k') (<[k := tombstoned e now]> table !! k').
Proof.
  intros He. destruct (decide (k = k')) as [<-|Hne].
  - rewrite lookup_insert_eq, He. constructor. apply kept_as_tombstoned.
  - rewrite lookup_insert_ne by done.
    destruct (table !! k'); constructor. apply kept_as_refl.
Qed.

Lemma option_Forall2_kept_as_refl {F} (o : option (Entity F)) :
  option_Forall2 kept_as o o.
Proof. destruct o; constructor. apply kept_as_refl. Qed.

(** X7: [mark_user_for_deletion] removes no record and creates none: under
    every key of either table there is a record afterwards exactly when
    there was one before, with the same cross-reference (and
    [parent_user_id]), still tombstoned if it was, and with its creation
    timestamp if it had one. *)
Theorem mark_keeps_records w uid :
  let ds := datastore w in
  let ds' := datastore_after (mark_user_for_deletion uid) w in
  (∀ auth_id,
     option_Forall2 kept_as
       (user_identifiers ds !! auth_id) (user_identifiers ds' !! auth_id))
  ∧ (∀ uid',
       option_Forall2 kept_as
         (user_auth_details ds !! uid') (user_auth_details ds' !! uid')).
Proof.
  intros ds ds'. unfold ds', ds, datastore_after.
  destruct (mark_cases w uid)
    as [(e & a & ea & He & Hd & Hg & Hea & Hda & ->)
       |[(e & He & Hd & Hg & ->)
       |[(m & Hget & Hq & ->)
       |(Hget & Hq & ->)]]]; simpl.
  - split; intros k.
    + by apply option_Forall2_kept_as_insert.
    + by apply option_Forall2_kept_as_insert.
  - split; intros k.
    + apply option_Forall2_kept_as_refl.
    + by apply option_Forall2_kept_as_insert.
  - destruct (get_by_user_id_Some _ _ _ Hq) as [Hm _].
    split; intros k.
    + by apply option_Forall2_kept_as_insert.
    + apply option_Forall2_kept_as_refl.
  - split; intros k; apply option_Forall2_kept_as_refl.
Qed.

(** The lookups after one call of [mark_user_for_deletion]. *)
Lemma mark_lookup_facts w uid :
  let ds := datastore w in
  let ds' := datastore (mark_user_for_deletion uid w).2 in
  (∀ auth_id,
     get_user_id_from_auth_id auth_id ds'
     = get_user_id_from_auth_id auth_id ds)
  ∧ (∀ uid', uid' ≠ uid →
       get_auth_id_from_user_id uid' ds' = get_auth_id_from_user_id uid' ds)
  ∧ get_auth_id_from_user_id uid ds' = None.
Proof.
  intros ds ds'. unfold ds', ds.
  destruct (mark_first_call w uid) as (_ & Hget & _).
  unfold world_after in Hget.
  split_and!.
  - intros k. rewrite !get_user_id_from_auth_id_lookup.
    destruct (mark_cases w uid)
      as [(e & a & ea & He & Hd & Hg & Hea & Hda & ->)
         |[(e & He & Hd & Hg & ->)
         |[(m & _ & Hq & ->)
         |(_ & Hq & ->)]]]; simpl; try done.
    + destruct (decide (a = k)) as [<-|Hne].
      * by rewrite lookup_insert_eq, Hea.
      * by rewrite lookup_insert_ne.
    + destruct (get_by_user_id_Some _ _ _ Hq) as [Hm _].
      destruct (decide (id m = k)) as [<-|Hne].
      * by rewrite lookup_insert_eq, Hm.
      * by rewrite lookup_insert_ne.
  - intros k Hk. rewrite !get_auth_id_from_user_id_lookup.
    destruct (mark_cases w uid)
      as [(e & a & ea & He & Hd & Hg & Hea & Hda & ->)
         |[(e & He & Hd & Hg & ->)
         |[(m & _ & Hq & ->)
         |(_ & Hq & ->)]]]; simpl; try done.
    + by rewrite lookup_insert_ne.
    + by rewrite lookup_insert_ne.
  - unfold get_auth_id_from_user_id. by rewrite Hget.
Qed.

(** X8: after [mark_user_for_deletion], [get_user_id_from_auth_id] returns
    for every auth ID what it returned before, [get_auth_id_from_user_id]
    returns None for the user and, for every other user, what it returned
    before.  A second call in a row changes no result of either lookup. *)
Theorem mark_lookups w uid :
  let call := mark_user_for_deletion uid in
  let ds := datastore w in
  let ds1 := datastore_after call w in
  let ds2 := datastore_after call (world_after call w) in
  (∀ auth_id,
     get_user_id_from_auth_id auth_id ds1
     = get_user_id_from_auth_id auth_id ds)
  ∧ (∀ uid', uid' ≠ uid →
       get_auth_id_from_user_id uid' ds1 = get_auth_id_from_user_id uid' ds)
  ∧ get_auth_id_from_user_id uid ds1 = None
  ∧ (∀ auth_id,
       get_user_id_from_auth_id auth_id ds2
       = get_user_id_from_auth_id auth_id ds1)
  ∧ (∀ uid',
       get_auth_id_from_user_id uid' ds2 = get_auth_id_from_user_id uid' ds1).
Proof.
  intros call ds ds1 ds2.
  destruct (mark_lookup_facts w uid) as (A1 & A2 & A3).
  destruct (mark_lookup_facts (world_after call w) uid) as (B1 & B2 & B3).
  split_and!; try done.
  intros u'. destruct (decide (u' = uid)) as [->|Hne].
  - unfold ds2, ds1, datastore_after, call, world_after in *. congruence.
  - by apply B2.
Qed.

(** X9: the batched lookups after [mark_user_for_deletion]:
    [get_multi_user_ids_from_auth_ids] returns for every list of auth IDs
    what it returned before, and [get_multi_auth_ids_from_user_ids] returns
    what it returned before except for None at the positions of the
    user. *)
Theorem mark_batched_lookups w uid (auth_ids user_ids : list string) :
  let ds := datastore w in
  let ds' := datastore_after (mark_user_for_deletion uid) w in
  get_multi_user_ids_from_auth_ids auth_ids ds'
  = get_multi_user_ids_from_auth_ids auth_ids ds
  ∧ get_multi_auth_ids_from_user_ids user_ids ds'
    = (λ uid', if decide (uid' = uid) then None
               else get_auth_id_from_user_id uid' ds) <$> user_ids.
Proof.
  intros ds ds'.
  destruct (mark_lookup_facts w uid) as (A1 & A2 & A3).
  rewrite !get_multi_user_ids_from_auth_ids_fmap,
    get_multi_auth_ids_from_user_ids_fmap.
  split.
  - apply list_fmap_ext. intros _ a _. apply A1.
  - apply list_fmap_ext. intros _ u' _.
    destruct (decide (u' = uid)) as [->|Hne]; [done|]. by apply A2.
Qed.

Lemma mark_lookups_witness :
  get_auth_id_from_user_id "u9"
    (datastore_after (mark_user_for_deletion "u2") world_a1_u9_a9_u2)
  = Some "a1".
Proof.
  rewrite (proj1 (proj2 (mark_lookups world_a1_u9_a9_u2 "u2")) "u9");
    [reflexivity | done].
Defined.

(** X10: [mark_user_for_deletion] never changes the
    [UserAuthDetailsModel] of another user.  It reads the
    [UserIdentifiersModel] to tombstone by the key in the user's [gae_id]
    without comparing its [user_id]: when that record is live it is
    tombstoned whichever user it names.  When the record under the user's
    readable auth ID does name the user, no [UserIdentifiersModel] that
    names another user is changed. *)
Theorem mark_other_users w uid :
  let ds := datastore w in
  let ds' := datastore_after (mark_user_for_deletion uid) w in
  (∀ uid', uid' ≠ uid →
     user_auth_details ds' !! uid' = user_auth_details ds !! uid')
  ∧ (∀ auth_id e,
       get_auth_id_from_user_id uid ds = Some auth_id →
       user_identifiers ds !! auth_id = Some e →
       deleted e = false →
       ∃ e', user_identifiers ds' !! auth_id = Some e'
             ∧ deleted e' = true ∧ fields e' = fields e)
  ∧ ((∀ auth_id,
        get_auth_id_from_user_id uid ds = Some auth_id →
        get_user_id_from_auth_id auth_id ds = Some uid) →
     ∀ auth_id e,
       user_identifiers ds !! auth_id = Some e →
       user_id (fields e) ≠ uid →
       user_identifiers ds' !! auth_id = Some e).
Proof.
  intros ds ds'. unfold ds', ds, datastore_after.
  destruct (mark_cases w uid)
    as [(e & a & ea & He & Hd & Hg & Hea & Hda & ->)
       |[(e & He & Hd & Hg & ->)
       |[(m & Hget & Hq & ->)
       |(Hget & Hq & ->)]]]; simpl.
  - assert (get_auth_id_from_user_id uid (datastore w) = Some a) as Hl.
    { rewrite get_auth_id_from_user_id_lookup, He. simpl. by rewrite Hd. }
    split_and!.
    + intros u' Hne. by rewrite lookup_insert_ne.
    + intros a' e' Ha' He' Hd'. assert (a' = a) as -> by congruence.
      rewrite lookup_insert_eq. eexists. split; [done|].
      split; [done|]. simpl. congruence.
    + intros Hsym a' e' He' Hu'.
      specialize (Hsym a Hl).
      rewrite get_user_id_from_auth_id_lookup, Hea in Hsym.
      injection Hsym as Hsym.
      rewrite lookup_insert_ne; [done|]. intros <-. congruence.
  - split_and!.
    + intros u' Hne. by rewrite lookup_insert_ne.
    + intros a' e' Ha' He' Hd'.
      rewrite get_auth_id_from_user_id_lookup, He in Ha'. simpl in Ha'.
      rewrite Hd in Ha'. specialize (Hg a' Ha').
      rewrite get_UserIdentifiersModel_lookup, He' in Hg. simpl in Hg.
      by rewrite Hd' in Hg.
    + done.
  - destruct (get_by_user_id_Some _ _ _ Hq) as [Hm Hu].
    split_and!.
    + done.
    + intros a' e' Ha'. unfold get_auth_id_from_user_id in Ha'.
      by rewrite Hget in Ha'.
    + intros _ a' e' He' Hu'.
      rewrite lookup_insert_ne; [done|]. intros <-. congruence.
  - split_and!; [done| |done].
    intros a' e' Ha'. unfold get_auth_id_from_user_id in Ha'.
    by rewrite Hget in Ha'.
Qed.

Lemma mark_other_users_witness :
  user_auth_details
    (datastore_after (mark_user_for_deletion "u2") world_a1_u9_a9_u2) !! "u9"
  = user_auth_details (datastore world_a1_u9_a9_u2) !! "u9".
Proof.
  by apply (proj1 (mark_other_users world_a1_u9_a9_u2 "u2")).
Defined.

(** X11: once an associated pair is marked for deletion, the auth ID stays
    taken: associating it with any user raises and names the deleted user.
    The user ID is free again: associating it with any auth ID that has no
    [UserIdentifiersModel] succeeds, after which the user looks up the new
    auth ID and both auth IDs look up the user. *)
Theorem reassociate_after_deletion w auth_id uid :
  get_user_id_from_auth_id auth_id (datastore w) = Some uid →
  get_auth_id_from_user_id uid (datastore w) = Some auth_id →
  let w1 := world_after (mark_user_for_deletion uid) w in
  (∀ uid',
     associate_auth_id_with_user_id (auth_id, uid') w1
     = (Raise (AuthIdAlreadyAssociated auth_id uid), w1))
  ∧ (∀ auth_id',
       get_user_id_from_auth_id auth_id' (datastore w) = None →
       let call := associate_auth_id_with_user_id (auth_id', uid) in
       result_of call w1 = Ok tt
       ∧ get_auth_id_from_user_id uid (datastore_after call w1) = Some auth_id'
       ∧ get_user_id_from_auth_id auth_id' (datastore_after call w1) = Some uid
       ∧ get_user_id_from_auth_id auth_id (datastore_after call w1) = Some uid).
Proof.
  intros H1 H2 w1.
  destruct (mark_lookup_facts w uid) as (A1 & A2 & A3).
  fold (world_after (mark_user_for_deletion uid) w) in A1, A2, A3.
  fold w1 in A1, A2, A3.
  split.
  - intros u'. apply associate_auth_id_collision. by rewrite A1.
  - intros a' Ha' call.
    assert (get_user_id_from_auth_id a' (datastore w1) = None) as Hfree
      by (by rewrite A1).
    unfold call, result_of, datastore_after.
    destruct (associate_no_collision_lookups w1 a' uid Hfree A3) as [L1 L2].
    rewrite associate_no_collision in * by done. simpl in *.
    split_and!; try done.
    rewrite get_user_id_from_auth_id_lookup. simpl.
    rewrite lookup_insert_ne by congruence.
    rewrite <-get_user_id_from_auth_id_lookup. by rewrite A1.
Qed.

Lemma reassociate_after_deletion_witness :
  associate_auth_id_with_user_id ("a1", "u2") world_a1_u1_deleted
  = (Raise (AuthIdAlreadyAssociated "a1" "u1"), world_a1_u1_deleted)
  ∧ get_auth_id_from_user_id "u1"
      (datastore_after (associate_auth_id_with_user_id ("a2", "u1"))
         world_a1_u1_deleted)
    = Some "a2".
Proof.
  destruct (reassociate_after_deletion world_a1_u1 "a1" "u1") as [R1 R2];
    [reflexivity | reflexivity |].
  split.
  - apply R1.
  - apply (R2 "a2"). reflexivity.
Defined.

(** ** The symmetry the calls keep *)

Lemma symmetric_erased ds :
  symmetric (without_timestamps ds) ↔ symmetric ds.
Proof.
  unfold symmetric. split; intros [HA HB]; split.
  - intros u a H. specialize (HA u a).
    rewrite get_auth_id_from_user_id_erased,
      get_user_id_from_auth_id_erased in HA. auto.
  - intros a e He Hd.
    specialize (HB a (erase_timestamps e)).
    rewrite get_auth_id_from_user_id_erased in HB. apply HB; [|done].
    simpl. by rewrite lookup_fmap, He.
  - intros u a H.
    rewrite get_auth_id_from_user_id_erased in H.
    rewrite get_user_id_from_auth_id_erased. auto.
  - intros a e' He' Hd. simpl in He'.
    rewrite lookup_fmap in He'.
    apply fmap_Some in He' as (e & He & ->).
    rewrite get_auth_id_from_user_id_erased. by apply (HB a e).
Qed.

Lemma associate_preserves_symmetric w p :
  symmetric (datastore w) →
  symmetric (datastore (associate_auth_id_with_user_id p w).2).
Proof.
  intros [HA HB]. destruct p as [auth_id uid].
  destruct (associate_world_cases w auth_id uid) as [->|(H1 & H2 & ->)];
    [done|]. simpl.
  split.
  - intros u' a'.
    rewrite get_auth_id_from_user_id_lookup, get_user_id_from_auth_id_lookup.
    simpl. destruct (decide (u' = uid)) as [->|Hne].
    + rewrite lookup_insert_eq. simpl. intros [= <-].
      by rewrite lookup_insert_eq.
    + rewrite lookup_insert_ne by done.
      rewrite <-get_auth_id_from_user_id_lookup. intros H.
      pose proof (HA u' a' H) as H'.
      rewrite lookup_insert_ne by congruence.
      by rewrite <-get_user_id_from_auth_id_lookup.
  - intros a' e.
    rewrite get_auth_id_from_user_id_lookup. simpl.
    destruct (decide (a' = auth_id)) as [->|Hne].
    + rewrite lookup_insert_eq. intros [= <-] _. simpl.
      by rewrite lookup_insert_eq.
    + rewrite lookup_insert_ne by done. intros He Hd.
      pose proof (HB a' e He Hd) as H'.
      rewrite lookup_insert_ne by congruence.
      by rewrite <-get_auth_id_from_user_id_lookup.
Qed.

Lemma mark_live_after w uid auth_id e' :
  user_identifiers (datastore (mark_user_for_deletion uid w).2) !! auth_id
  = Some e' →
  deleted e' = false →
  user_identifiers (datastore w) !! auth_id = Some e'.
Proof.
  destruct (mark_cases w uid)
    as [(e & a & ea & He & Hd & Hg & Hea & Hda & ->)
       |[(e & He & Hd & Hg & ->)
       |[(m & Hget & Hq & ->)
       |(Hget & Hq & ->)]]]; simpl; try done.
  - destruct (decide (a = auth_id)) as [<-|Hne].
    + rewrite lookup_insert_eq. by intros [= <-].
    + by rewrite lookup_insert_ne.
  - destruct (decide (id m = auth_id)) as [<-|Hne].
    + rewrite lookup_insert_eq. by intros [= <-].
    + by rewrite lookup_insert_ne.
Qed.

Lemma mark_preserves_symmetric w uid :
  symmetric (datastore w) →
  symmetric (datastore (mark_user_for_deletion uid w).2).
Proof.
  intros [HA HB].
  destruct (mark_lookup_facts w uid) as (A1 & A2 & A3).
  destruct (mark_first_call w uid) as (_ & _ & Hdel).
  unfold world_after in Hdel.
  split.
  - intros u' a' H. destruct (decide (u' = uid)) as [->|Hne].
    + congruence.
    + rewrite A2 in H by done. rewrite A1. by apply HA.
  - intros a' e' He' Hd'.
    pose proof (mark_live_after _ _ _ _ He' Hd') as He.
    assert (user_id (fields e') ≠ uid) as Hne.
    { intros Hu.
      enough (deleted e' = true) by congruence.
      apply (Hdel (λ a e Ha Hu0 Hd0,
                     eq_ind _ (λ u, get_auth_id_from_user_id u _ = Some a)
                       (HB a e Ha Hd0) _ Hu0) a' e' He' Hu). }
    rewrite A2 by done. by apply HB.
Qed.

Lemma associate_sequentially_preserves_symmetric pairs : ∀ w,
  symmetric (datastore w) →
  symmetric (datastore (associate_sequentially pairs w).2).
Proof.
  unfold associate_sequentially.
  induction pairs as [|p pairs IH]; intros w Hs; simpl; [done|].
  unfold bind.
  pose proof (associate_preserves_symmetric w p Hs) as Hs1.
  destruct (associate_auth_id_with_user_id p w) as [[[]|e] w1]; simpl in *.
  - by apply IH.
  - done.
Qed.

Lemma associate_multi_preserves_symmetric w pairs :
  NoDup pairs.*1 → NoDup pairs.*2 →
  symmetric (datastore w) →
  symmetric (datastore (associate_multi_auth_ids_with_user_ids pairs w).2).
Proof.
  intros Hd1 Hd2 Hs.
  destruct (associate_multi_world_cases w pairs)
    as [(_ & Hw & _)|(Hne & H & _)].
  { unfold world_after in Hw. by rewrite Hw. }
  destruct (associate_multi_no_collision_erased w pairs Hne H) as [_ Hb].
  destruct (associate_sequentially_erased pairs w Hd1 Hd2 H) as [_ Hq].
  unfold datastore_after in Hb, Hq.
  apply symmetric_erased. rewrite Hb, <-Hq. apply symmetric_erased.
  by apply associate_sequentially_preserves_symmetric.
Qed.

(** X12: the two tables stay symmetric.  In a datastore where every
    readable auth ID of a user is backed by the [UserIdentifiersModel] of
    that auth ID naming the user, and every live [UserIdentifiersModel]
    names a user whose readable auth ID is its key, the same holds after
    any sequence of associations, batches with pairwise distinct auth IDs
    and pairwise distinct user IDs, and deletions, whether the calls
    succeed or raise.  The empty datastore is symmetric. *)
Theorem calls_keep_symmetric calls w :
  Forall distinct_ids calls →
  symmetric (datastore w) →
  symmetric (datastore (world_after_calls calls w))
  ∧ symmetric (mkDatastore ∅ ∅).
Proof.
  intros Hcalls Hs. split.
  - unfold world_after_calls. revert w Hs.
    induction Hcalls as [|c calls Hc _ IH]; intros w Hs; simpl; [done|].
    apply IH. unfold world_after.
    destruct c as [p|pairs|uid]; simpl in *.
    + by apply associate_preserves_symmetric.
    + destruct Hc. by apply associate_multi_preserves_symmetric.
    + by apply mark_preserves_symmetric.
  - split.
    + intros u a H. by rewrite get_auth_id_from_user_id_lookup in H.
    + intros a e H. simpl in H. by rewrite lookup_empty in H.
Qed.

Lemma calls_keep_symmetric_witness :
  symmetric
    (datastore
       (world_after_calls
          [Associate ("a1", "u1"); MarkForDeletion "u1";
           AssociateMulti [("a2", "u1"); ("a3", "u3")];
           Associate ("a1", "u9")]
          empty_world)).
Proof.
  apply (calls_keep_symmetric
           [Associate ("a1", "u1"); MarkForDeletion "u1";
            AssociateMulti [("a2", "u1"); ("a3", "u3")];
            Associate ("a1", "u9")]
           empty_world).
  - repeat constructor; compute_done.
  - split.
    + intros u a H. by rewrite get_auth_id_from_user_id_lookup in H.
    + intros a e H. simpl in H. by rewrite lookup_empty in H.
Defined.

(** X13: for a user that has no [UserAuthDetailsModel] and that no
    [UserIdentifiersModel] names, [mark_user_for_deletion] returns without
    writing anything and without reading the clock. *)
Theorem mark_unknown_user w uid :
  user_auth_details (datastore w) !! uid = None →
  (∀ auth_id e,
     user_identifiers (datastore w) !! auth_id = Some e →
     user_id (fields e) ≠ uid) →
  mark_user_for_deletion uid w = (Ok tt, w).
Proof.
  intros Hnone Hnot. apply mark_nothing.
  - by rewrite get_UserAuthDetailsModel_lookup, Hnone.
  - destruct (get_by_user_id uid (datastore w)) as [m|] eqn:Hq; [|done].
    destruct (get_by_user_id_Some _ _ _ Hq) as [Hm Hu].
    by destruct (Hnot _ _ Hm).
Qed.

Lemma mark_unknown_user_witness :
  mark_user_for_deletion "u2" world_a1_u1 = (Ok tt, world_a1_u1).
Proof.
  apply mark_unknown_user.
  - reflexivity.
  - intros auth_id e He Hu.
    unfold world_a1_u1, world_after in He.
    rewrite associate_no_collision in He by reflexivity. simpl in He.
    destruct (decide (auth_id = "a1")) as [->|Hne].
    + rewrite lookup_insert_eq in He. injection He as <-. discriminate.
    + rewrite lookup_insert_ne in He by done. done.
Defined.

(** ** The sign-out hook on any clock *)

Lemma destroy_auth_session_cookie_cases w response (cookie_name : string) :
  let w' := mkWorld (datastore w) (clock w) (S (ticks w)) in
  (∃ value,
     destroy_auth_session_cookie response cookie_name w
     = (Ok (mkResponse (headers response ++ [("Set-Cookie", value)])), w'))
  ∨ destroy_auth_session_cookie response cookie_name w
    = (Raise OverflowError, w').
Proof.
  intros w'. unfold destroy_auth_session_cookie, bind, utcnow, datetime_sub.
  destruct ((0 <? toordinal _)%Z && (toordinal _ <=? _MAXORDINAL)%Z).
  - left. eexists. unfold ret. simpl. done.
  - right. done.
Qed.

(** X14: on any clock and any response, [destroy_auth_session] leaves the
    datastore as it is; whenever it returns, the response has exactly three
    [Set-Cookie] headers more, added after the headers it had; and the
    cookie line always splits into a header name and a value, so
    [add_header] is never called with the wrong number of arguments. *)
Theorem destroy_auth_session_outcome w response :
  let call := destroy_auth_session response in
  datastore (world_after call w) = datastore w
  ∧ (∀ response',
       result_of call w = Ok response' →
       ∃ value1 value2 value3,
         headers response'
         = headers response ++
           [("Set-Cookie", value1); ("Set-Cookie", value2);
            ("Set-Cookie", value3)])
  ∧ result_of call w ≠ Raise TypeError.
Proof.
  intros call. unfold call, world_after, result_of, destroy_auth_session.
  cbn [foldM]. unfold bind.
  destruct (destroy_auth_session_cookie_cases w response "ACSID")
    as [[v1 ->]| ->]; [|by split_and!].
  set (w1 := mkWorld _ _ _).
  destruct (destroy_auth_session_cookie_cases w1
              (mkResponse (headers response ++ [("Set-Cookie", v1)])) "SACSID")
    as [[v2 ->]| ->]; [|by split_and!].
  set (w2 := mkWorld _ _ _).
  destruct (destroy_auth_session_cookie_cases w2
              (mkResponse
                 (headers (mkResponse (headers response ++ [("Set-Cookie", v1)]))
                  ++ [("Set-Cookie", v2)])) "dev_appserver_login")
    as [[v3 ->]| ->]; [|by split_and!].
  split_and!; [done| |done].
  intros r' [= <-]. exists v1, v2, v3. simpl.
  by rewrite <-!(assoc_L (++)).
Qed.

Lemma destroy_auth_session_outcome_witness :
  ∃ value1 value2 value3,
    headers
      (mkResponse
         [("Content-Type", "text/html");
          ("Set-Cookie", "ACSID=; expires=Fri, 01 Jan 2021 03:04:05 GMT");
          ("Set-Cookie", "SACSID=; expires=Fri, 01 Jan 2021 03:04:06 GMT");
          ("Set-Cookie",
           "dev_appserver_login=; expires=Fri, 01 Jan 2021 03:04:07 GMT")])
    = [("Content-Type", "text/html")] ++
      [("Set-Cookie", value1); ("Set-Cookie", value2); ("Set-Cookie", value3)].
Proof.
  apply (proj1 (proj2 (destroy_auth_session_outcome empty_world
                         (mkResponse [("Content-Type", "text/html")])))).
  vm_compute. reflexivity.
Defined.

(** ** The shape of the [expires] timestamp *)

Local Open Scope Z_scope.

Lemma month_day_cases (year k : Z) (leapyear : bool) :
  0 ≤ k < 365 →
  let month := Z.shiftr (k + 50) 5 in
  let preceding :=
    _DAYS_BEFORE_MONTH month + (if (2 <? month) && leapyear then 1 else 0) in
  let md :=
    if k <? preceding
    then
      let month := month - 1 in
      let preceding :=
        preceding
        - (_DAYS_IN_MONTH month + (if (month =? 2) && leapyear then 1 else 0)) in
      (year, month, k - preceding + 1)
    else (year, month, k - preceding + 1) in
  1 ≤ md.1.2 ≤ 12 ∧ 1 ≤ md.2 ≤ 31.
Proof.
  intros Hk. rewrite Z.shiftr_div_pow2 by lia.
  change (2 ^ 5) with 32.
  pose proof (Z.div_mod (k + 50) 32 ltac:(lia)) as Hdm.
  pose proof (Z.mod_pos_bound (k + 50) 32 ltac:(lia)) as Hmb.
  set (m := (k + 50) / 32) in *.
  assert (m = 1 ∨ m = 2 ∨ m = 3 ∨ m = 4 ∨ m = 5 ∨ m = 6 ∨ m = 7 ∨ m = 8
          ∨ m = 9 ∨ m = 10 ∨ m = 11 ∨ m = 12) as Hm by lia.
  clearbody m.
  destruct Hm as [->|[->|[->|[->|[->|[->|[->|[->|[->|[->|[->| ->]]]]]]]]]]];
    destruct leapyear;
    unfold _DAYS_BEFORE_MONTH, _DAYS_IN_MONTH;
    repeat match goal with
           | |- context [Z.to_nat ?x] =>
               let v := eval vm_compute in (Z.to_nat x) in
               change (Z.to_nat x) with v
           end;
    repeat match goal with
           | |- context [?a <? ?b] =>
               let v := eval vm_compute in (a <? b) in
               match v with
               | true => change (a <? b) with true
               | false => change (a <? b) with false
               end
           | |- context [?a =? ?b] =>
               let v := eval vm_compute in (a =? b) in
               match v with
               | true => change (a =? b) with true
               | false => change (a =? b) with false
               end
           end;
    cbn [nth andb];
    repeat match goal with
           | |- context [?a <? ?b] => destruct (Z.ltb_spec a b)
           end;
    cbn [fst snd]; lia.
Qed.

Lemma _ord2ymd_range (n : Z) :
  1 ≤ (_ord2ymd n).1.2 ≤ 12 ∧ 1 ≤ (_ord2ymd n).2 ≤ 31.
Proof.
  unfold _ord2ymd. cbv zeta.
  match goal with
  | |- context [if ?c then (_, 12, 31) else _] => destruct c
  end; [simpl; lia|].
  apply month_day_cases.
  apply Z.mod_pos_bound. lia.
Qed.

Lemma string_length_app (s1 s2 : string) :
  String.length (s1 +:+ s2) = (String.length s1 + String.length s2)%nat.
Proof. induction s1 as [|c s1 IH]; simpl; [done|]. by rewrite IH. Qed.

Lemma length_zfill (width : nat) (n : Z) : String.length (zfill width n) = width.
Proof.
  revert n. induction width as [|width IH]; intros n; simpl; [done|].
  rewrite string_length_app, IH. simpl. lia.
Qed.

Lemma length_day_abbr (wd : Z) :
  0 ≤ wd < 7 → String.length (day_abbr wd) = 3%nat.
Proof.
  intros H.
  assert (wd = 0 ∨ wd = 1 ∨ wd = 2 ∨ wd = 3 ∨ wd = 4 ∨ wd = 5 ∨ wd = 6)
    as [->|[->|[->|[->|[->|[->| ->]]]]]] by lia; reflexivity.
Qed.

Lemma length_month_abbr (month : Z) :
  1 ≤ month ≤ 12 → String.length (month_abbr month) = 3%nat.
Proof.
  intros H.
  assert (month = 1 ∨ month = 2 ∨ month = 3 ∨ month = 4 ∨ month = 5
          ∨ month = 6 ∨ month = 7 ∨ month = 8 ∨ month = 9 ∨ month = 10
          ∨ month = 11 ∨ month = 12)
    as [->|[->|[->|[->|[->|[->|[->|[->|[->|[->|[->| ->]]]]]]]]]]] by lia;
    reflexivity.
Qed.

(** X15: for a datetime with a four-digit year, the [expires] timestamp
    that [destroy_auth_session] prints has 29 characters, and the fields it
    prints are in range (weekday 0 to 6, day 1 to 31, month 1 to 12, hour
    below 24, minute and second below 60), so that every weekday and month
    has its abbreviation and no zero-filled field is cut. *)
Theorem strftime_shape (t : datetime) :
  1000 ≤ year_of t ≤ 9999 →
  String.length (strftime "%a, %d %b %Y %H:%M:%S GMT" t) = 29%nat
  ∧ 0 ≤ weekday t < 7
  ∧ 1 ≤ day_of t ≤ 31
  ∧ 1 ≤ month_of t ≤ 12
  ∧ 0 ≤ hour_of t < 24
  ∧ 0 ≤ minute_of t < 60
  ∧ 0 ≤ second_of t < 60.
Proof.
  intros _.
  assert (0 ≤ weekday t < 7) as Hwd by (apply Z.mod_pos_bound; lia).
  destruct (_ord2ymd_range (toordinal t)) as [Hm Hd].
  fold (month_of t) in Hm. fold (day_of t) in Hd.
  assert (0 ≤ hour_of t < 24) as HH.
  { unfold hour_of, MICROSECONDS_PER_DAY.
    pose proof (Z.mod_pos_bound t (86400 * 1000000) ltac:(lia)).
    split; [apply Z.div_pos; lia | apply Z.div_lt_upper_bound; lia]. }
  assert (0 ≤ minute_of t < 60) as HM.
  { unfold minute_of.
    pose proof (Z.mod_pos_bound t 3600000000 ltac:(lia)).
    split; [apply Z.div_pos; lia | apply Z.div_lt_upper_bound; lia]. }
  assert (0 ≤ second_of t < 60) as HS.
  { unfold second_of.
    pose proof (Z.mod_pos_bound t 60000000 ltac:(lia)).
    split; [apply Z.div_pos; lia | apply Z.div_lt_upper_bound; lia]. }
  split; [|done].
  change (strftime "%a, %d %b %Y %H:%M:%S GMT" t)
    with (day_abbr (weekday t) +:+ ", " +:+ zfill 2 (day_of t) +:+ " "
          +:+ month_abbr (month_of t) +:+ " " +:+ zfill 4 (year_of t) +:+ " "
          +:+ zfill 2 (hour_of t) +:+ ":" +:+ zfill 2 (minute_of t) +:+ ":"
          +:+ zfill 2 (second_of t) +:+ " GMT").
  rewrite !string_length_app, !length_zfill, length_day_abbr,
    length_month_abbr by done.
  reflexivity.
Qed.

Lemma strftime_shape_witness :
  String.length
    (strftime "%a, %d %b %Y %H:%M:%S GMT" (datetime_of 2021 1 1 3 4 5))
  = 29%nat.
Proof.
  apply (strftime_shape (datetime_of 2021 1 1 3 4 5)).
  vm_compute. split; discriminate.
Defined.

Local Close Scope Z_scope.

(** * [mark_user_for_deletion], twice in a row *)

(** C6, as the code has it, for a user whose [UserAuthDetailsModel], when
    it is live, has an auth ID: two calls of [mark_user_for_deletion] in a
    row both succeed.  The second call leaves the [UserAuthDetailsModel]s
    as they are, and changes at most one [UserIdentifiersModel]: the one
    its reverse query on the user ID returns, which it tombstones again with
    a new update timestamp.  When every live [UserIdentifiersModel] naming
    the user was the one of the user's auth ID, the second call changes
    nothing but that timestamp. *)
Theorem mark_twice w uid :
  (∀ e, user_auth_details (datastore w) !! uid = Some e →
        deleted e = false → is_Some (gae_id (fields e))) →
  let call := mark_user_for_deletion uid in
  let w1 := world_after call w in
  let w2 := world_after call w1 in
  result_of call w = Ok tt
  ∧ result_of call w1 = Ok tt
  ∧ user_auth_details (datastore w2) = user_auth_details (datastore w1)
  ∧ (user_identifiers (datastore w2) = user_identifiers (datastore w1)
     ∨ ∃ m,
         get_by_user_id uid (datastore w1) = Some m
         ∧ user_identifiers (datastore w1) !! id m = Some (entity m)
         ∧ user_id (fields (entity m)) = uid
         ∧ user_identifiers (datastore w2)
           = <[id m := tombstoned (entity m) (clock w1 (ticks w1))]>
               (user_identifiers (datastore w1)))
  ∧ ((∀ auth_id e,
        user_identifiers (datastore w) !! auth_id = Some e →
        user_id (fields e) = uid → deleted e = false →
        get_auth_id_from_user_id uid (datastore w) = Some auth_id) →
     without_timestamps (datastore w2) = without_timestamps (datastore w1)).
Proof.
  intros Hauth call w1 w2.
  destruct (mark_first_call w uid) as (Hok & Hget & Hdel).
  specialize (Hok Hauth).
  fold call in Hok. fold call w1 in Hget, Hdel.
  split; [done|].
  unfold w2, result_of, world_after, call.
  destruct (mark_cases w1 uid)
    as [(e & a & ea & He & Hd & _)
       |[(e & He & Hd & _)
       |[(m & _ & Hq & ->)
       |(_ & Hq & ->)]]].
  - rewrite get_UserAuthDetailsModel_lookup, He in Hget. simpl in Hget.
    by rewrite Hd in Hget.
  - rewrite get_UserAuthDetailsModel_lookup, He in Hget. simpl in Hget.
    by rewrite Hd in Hget.
  - destruct (get_by_user_id_Some _ _ _ Hq) as [Hm Hu]. simpl.
    split_and!; try done.
    + right. exists m. done.
    + intros Hsym. specialize (Hdel Hsym (id m) (entity m) Hm Hu).
      unfold without_timestamps. simpl. f_equal.
      rewrite fmap_insert, erase_tombstoned_deleted by done.
      apply insert_id. by rewrite lookup_fmap, Hm.
  - split_and!; try done. by left.
Qed.

Lemma mark_twice_witness :
  result_of (mark_user_for_deletion "u1") world_a1_u1 = Ok tt
  ∧ result_of (mark_user_for_deletion "u1") world_a1_u1_deleted = Ok tt
  ∧ without_timestamps
      (datastore
         (world_after (mark_user_for_deletion "u1") world_a1_u1_deleted))
    = without_timestamps (datastore world_a1_u1_deleted).
Proof.
  destruct (mark_twice world_a1_u1 "u1") as (R1 & R2 & _ & _ & Hsame).
  - intros e He _. unfold world_a1_u1, world_after in He.
    rewrite associate_no_collision in He by reflexivity. simpl in He.
    rewrite lookup_insert_eq in He. injection He as <-. by eexists.
  - split_and!; [exact R1 | exact R2 |].
    apply Hsame. intros auth_id e He Hu Hd.
    destruct (decide (auth_id = "a1")) as [->|Hne]; [reflexivity|].
    unfold world_a1_u1, world_after in He.
    rewrite associate_no_collision in He by reflexivity. simpl in He.
    rewrite lookup_insert_ne in He by done. done.
Defined.

(** C6 as stated fails, in two ways.  For a user whose live
    [UserAuthDetailsModel] has no auth ID, the first call tombstones that
    model and then raises, because the get of the [UserIdentifiersModel] is
    given no key.  For an associated pair, the second call finds the
    tombstoned [UserIdentifiersModel] again and refreshes its update
    timestamp, so the datastore after two calls is not the one after the
    first call. *)
Lemma mark_twice_changes_last_updated :
  let call := mark_user_for_deletion "u1" in
  let w1 := world_after call world_a1_u1 in
  let w2 := world_after call w1 in
  result_of call world_profile_user = Raise BadRequestError
  ∧ deleted
      <$> user_auth_details (datastore_after call world_profile_user) !! "u1"
    = Some true
  ∧ result_of call w1 = Ok tt
  ∧ last_updated <$> user_identifiers (datastore w1) !! "a1"
    = Some (Some (counting_clock 3))
  ∧ last_updated <$> user_identifiers (datastore w2) !! "a1"
    = Some (Some (counting_clock 4))
  ∧ datastore w2 ≠ datastore w1.
Proof.
  split_and!; try reflexivity.
  intros H.
  apply (f_equal (λ ds, last_updated <$> user_identifiers ds !! "a1")) in H.
  vm_compute in H. discriminate.
Qed.

(** * The batch and the sequential calls *)

Lemma stamped_from_frozen {F} (clk : nat → datetime) (now : datetime)
    tick (models : list (Model F)) :
  (∀ i, clk i = now) →
  stamped_from clk tick models = stamped now <$> models.
Proof.
  intros Hclk. revert tick.
  induction models as [|m models IH]; intros tick; simpl; [done|].
  by rewrite Hclk, IH.
Qed.

(** The world the sequential calls leave when the clock reads the same
    instant throughout. *)
Lemma associate_sequentially_frozen pairs now : ∀ w,
  (∀ i, clock w i = now) →
  NoDup pairs.*1 → NoDup pairs.*2 →
  (∀ p, p ∈ pairs →
     get_user_id_from_auth_id p.1 (datastore w) = None
     ∧ get_auth_id_from_user_id p.2 (datastore w) = None) →
  associate_sequentially pairs w
  = (Ok tt,
     mkWorld
       (mkDatastore
          (put_all
             (stamped now
                <$> ((λ p, new_UserIdentifiersModel p.1 p.2) <$> pairs))
             (user_identifiers (datastore w)))
          (put_all
             (stamped now
                <$> ((λ p, new_UserAuthDetailsModel p.2 p.1) <$> pairs))
             (user_auth_details (datastore w))))
       (clock w) (ticks w + length pairs + length pairs)).
Proof.
  unfold associate_sequentially.
  induction pairs as [|[auth_id uid] pairs IH]; intros w Hclk Hd1 Hd2 H.
  { simpl. unfold ret. rewrite !Nat.add_0_r. by destruct w as [[??]??]. }
  destruct (H (auth_id, uid) (list_elem_of_here _ _)) as [H1 H2].
  simpl in H1, H2.
  cbn [forM_]. unfold bind.
  rewrite (associate_no_collision w auth_id uid H1 H2).
  set (w1 := mkWorld _ _ _).
  apply NoDup_cons in Hd1 as [Hn1 Hd1]. apply NoDup_cons in Hd2 as [Hn2 Hd2].
  rewrite (IH w1); [| done | done | done |].
  - subst w1. simpl. rewrite !Hclk. do 2 f_equal. lia.
  - intros p Hp. destruct (H p (list_elem_of_further _ _ _ Hp)) as [Hp1 Hp2].
    rewrite get_user_id_from_auth_id_lookup, get_auth_id_from_user_id_lookup in *.
    subst w1. simpl.
    rewrite !lookup_insert_ne; [done| |].
    + intros ->. apply Hn2. apply list_elem_of_fmap. by exists p.
    + intros ->. apply Hn1. apply list_elem_of_fmap. by exists p.
Qed.

(** The sequential calls leave the records of every other key as they
    are. *)
Lemma associate_sequentially_frame pairs : ∀ w,
  (∀ auth_id, auth_id ∉ pairs.*1 →
     user_identifiers (datastore (associate_sequentially pairs w).2) !! auth_id
     = user_identifiers (datastore w) !! auth_id)
  ∧ (∀ uid, uid ∉ pairs.*2 →
       user_auth_details (datastore (associate_sequentially pairs w).2) !! uid
       = user_auth_details (datastore w) !! uid).
Proof.
  unfold associate_sequentially.
  induction pairs as [|[auth_id uid] pairs IH]; intros w; [done|].
  cbn [forM_]. unfold bind.
  assert (∀ w1 : World,
    (∀ a, a ∉ ((auth_id, uid) :: pairs).*1 →
       user_identifiers (datastore w1) !! a
       = user_identifiers (datastore w) !! a)
    ∧ (∀ u, u ∉ ((auth_id, uid) :: pairs).*2 →
         user_auth_details (datastore w1) !! u
         = user_auth_details (datastore w) !! u) →
    (∀ a, a ∉ ((auth_id, uid) :: pairs).*1 →
       user_identifiers
         (datastore
            (forM_ pairs associate_auth_id_with_user_id w1).2) !! a
       = user_identifiers (datastore w) !! a)
    ∧ (∀ u, u ∉ ((auth_id, uid) :: pairs).*2 →
         user_auth_details
           (datastore
              (forM_ pairs associate_auth_id_with_user_id w1).2) !! u
         = user_auth_details (datastore w) !! u)) as Hrest.
  { intros w1 [F1 F2]. destruct (IH w1) as [I1 I2]. split.
    - intros a Ha. rewrite I1, F1; [done|done|].
      simpl in Ha. apply not_elem_of_cons in Ha. by destruct Ha.
    - intros u Hu. rewrite I2, F2; [done|done|].
      simpl in Hu. apply not_elem_of_cons in Hu. by destruct Hu. }
  destruct (associate_world_cases w auth_id uid) as [Hsame|(_ & _ & Hrun)].
  - destruct (associate_auth_id_with_user_id (auth_id, uid) w)
      as [[[]|e] w1]; simpl in Hsame; subst w1.
    + by apply Hrest.
    + done.
  - rewrite Hrun. apply Hrest. simpl. split.
    + intros a Ha. simpl in Ha. apply not_elem_of_cons in Ha.
      destruct Ha as [Ha _]. by rewrite lookup_insert_ne.
    + intros u Hu. simpl in Hu. apply not_elem_of_cons in Hu.
      destruct Hu as [Hu _]. by rewrite lookup_insert_ne.
Qed.

(** C4: for pairs with pairwise distinct auth IDs and pairwise distinct
    user IDs, none of them associated in the datastore, the sequential calls
    all succeed, the batch succeeds (when there is a pair at all), and the
    batch leaves the same end state as the sequential calls: the two
    datastores hold the same records with the same cross-references and
    deletion flags, the records under the keys outside the batch are the
    same with their timestamps, and the written records carry the clock
    readings of their writes, so that with the clock at one instant the two
    datastores are equal. *)
Theorem associate_multi_as_sequence w pairs :
  NoDup pairs.*1 → NoDup pairs.*2 →
  (∀ p, p ∈ pairs →
     get_user_id_from_auth_id p.1 (datastore w) = None
     ∧ get_auth_id_from_user_id p.2 (datastore w) = None) →
  let batch := associate_multi_auth_ids_with_user_ids pairs in
  let sequence := associate_sequentially pairs in
  result_of sequence w = Ok tt
  ∧ (pairs ≠ [] → result_of batch w = Ok tt)
  ∧ without_timestamps (datastore_after batch w)
    = without_timestamps (datastore_after sequence w)
  ∧ (∀ auth_id, auth_id ∉ pairs.*1 →
       user_identifiers (datastore_after batch w) !! auth_id
       = user_identifiers (datastore_after sequence w) !! auth_id)
  ∧ (∀ uid, uid ∉ pairs.*2 →
       user_auth_details (datastore_after batch w) !! uid
       = user_auth_details (datastore_after sequence w) !! uid)
  ∧ ((∀ i j, clock w i = clock w j) →
     datastore_after batch w = datastore_after sequence w).
Proof.
  intros Hd1 Hd2 H batch sequence.
  destruct (associate_sequentially_erased pairs w Hd1 Hd2 H) as [S1 S2].
  destruct (associate_sequentially_frame pairs w) as [F1 F2].
  fold sequence in S1, S2, F1, F2.
  destruct (decide (pairs = [])) as [->|Hne].
  { split_and!; done. }
  destruct (associate_multi_no_collision_erased w pairs Hne H) as [B1 B2].
  fold batch in B1, B2.
  split_and!; try done.
  - by rewrite S2.
  - intros a Ha. unfold datastore_after in *. rewrite F1 by done.
    unfold batch. rewrite associate_multi_no_collision by done. simpl.
    rewrite put_all_lookup_notin; [done|].
    by rewrite fmap_id_stamped_from, fmap_fst_new_UserIdentifiersModel.
  - intros u Hu. unfold datastore_after in *. rewrite F2 by done.
    unfold batch. rewrite associate_multi_no_collision by done. simpl.
    rewrite put_all_lookup_notin; [done|].
    by rewrite fmap_id_stamped_from, fmap_snd_new_UserAuthDetailsModel.
  - intros Hclk. unfold datastore_after, batch, sequence.
    rewrite associate_multi_no_collision by done.
    rewrite (associate_sequentially_frozen pairs (clock w 0)) by done.
    simpl.
    by rewrite !(stamped_from_frozen (clock w) (clock w 0)).
Qed.

Lemma associate_multi_as_sequence_witness :
  let pairs := [("a1", "u1"); ("a2", "u2")] in
  without_timestamps
    (datastore_after (associate_multi_auth_ids_with_user_ids pairs) empty_world)
  = without_timestamps
      (datastore_after (associate_sequentially pairs) empty_world)
  ∧ datastore_after (associate_multi_auth_ids_with_user_ids pairs) frozen_world
    = datastore_after (associate_sequentially pairs) frozen_world.
Proof.
  split.
  - apply (associate_multi_as_sequence empty_world [("a1", "u1"); ("a2", "u2")]).
    + compute_done.
    + compute_done.
    + intros p Hp. split; reflexivity.
  - apply (associate_multi_as_sequence frozen_world [("a1", "u1"); ("a2", "u2")]).
    + compute_done.
    + compute_done.
    + intros p Hp. split; reflexivity.
    + done.
Defined.

(** The timestamps of the written records are the readings of the clock at
    their writes.  The batch stamps all its [UserIdentifiersModel]s before
    its [UserAuthDetailsModel]s, the sequential calls stamp pair by pair:
    with a clock that advances from reading to reading, the record of the
    second auth ID gets the second reading in the batch and the third in
    the sequential calls. *)
Lemma associate_multi_timestamps_differ :
  let pairs := [("a1", "u1"); ("a2", "u2")] in
  last_updated
    <$> user_identifiers
          (datastore_after (associate_multi_auth_ids_with_user_ids pairs)
             empty_world) !! "a2"
  = Some (Some (counting_clock 1))
  ∧ last_updated
      <$> user_identifiers
            (datastore_after (associate_sequentially pairs) empty_world) !! "a2"
    = Some (Some (counting_clock 2)).
Proof. split; reflexivity. Qed.
